(** * chitty_trust: the 6D trust engine, embedded and verified

    A shallow embedding of the scoring core of the [chitty_trust] package
    ([models.py], [dimensions.py], [scores.py], [core.py]) and of
    [TrustAnalytics.detect_patterns] ([analytics.py]).

    Conventions of the embedding.
    - Python [int] and [float] values are rationals ([Q]); float arithmetic
      is idealised as exact arithmetic, integers embed exactly.
    - A [datetime] is an integer number of microseconds since the epoch, a
      [timedelta] an integer number of microseconds; [.days] is the floor of
      the division by one day, as [timedelta] normalises it.
    - [datetime.utcnow()] is an effect: every call consumes the next reading
      of a clock, threaded through the code by a small state monad.
    - The [metadata] dictionaries of the records are never read by the code
      embedded here and are left out of the records.
    - A [datetime] object is naive or aware, and Python raises [TypeError]
      when a computation mixes the two.  The scorers are embedded on the
      records, where a datetime is its instant; the entry point is embedded
      on objects that also say which datetimes are aware ([EntityObject],
      [EventObject], [Module Objects]), and is proved to agree with the
      scorers on the records whenever it does not raise. *)

From Stdlib Require Import ZArith QArith Qminmax List String Bool Lia Lqa.
From Stdlib Require Import Permutation Sorted.
Import ListNotations.

Local Open Scope string_scope.
Local Open Scope Z_scope.
Local Open Scope Q_scope.

(** ** Python built-ins on numbers and lists *)

Module Py.

Definition Qltb (a b : Q) : bool := negb (Qle_bool b a).

(** [min(a, b)]: the first argument unless the second is strictly smaller. *)
Definition min (a b : Q) : Q := if Qltb b a then b else a.

(** [max(a, b)]: the first argument unless the second is strictly larger. *)
Definition max (a b : Q) : Q := if Qltb a b then b else a.

(** [len(l)] as a number. *)
Definition len {A : Type} (l : list A) : Q := inject_Z (Z.of_nat (List.length l)).

(** [sum(l)]: left fold from [0]. *)
Definition sum (l : list Q) : Q := fold_left Qplus l 0.

(** Truth value of a list: [if l:] holds when [l] is not empty. *)
Definition truthy {A : Type} (l : list A) : bool :=
  match l with [] => false | _ :: _ => true end.

(** [x in l] for strings. *)
Definition str_in (x : string) (l : list string) : bool :=
  existsb (String.eqb x) l.

(** [any(tag in tags for tag in vocabulary)]. *)
Definition any_in (vocabulary tags : list string) : bool :=
  existsb (fun tag => str_in tag tags) vocabulary.

(** [max(l, key=key)] on a non-empty list [e0 :: rest]: the first element
    whose key is maximal. *)
Definition max_by {A : Type} (key : A -> Z) (e0 : A) (rest : list A) : A :=
  fold_left (fun best e => if (key best <? key e)%Z then e else best) rest e0.

End Py.

(** ** The part of numpy the engine uses *)

Module Np.

(** [np.mean(l)]. *)
Definition mean (l : list Q) : Q := Py.sum l / Py.len l.

(** [np.var(l)]: the population variance. *)
Definition var (l : list Q) : Q :=
  let m := mean l in mean (map (fun x => (x - m) * (x - m)) l).

(** [np.linspace(start, stop, num)]. *)
Definition linspace (start stop : Q) (num : nat) : list Q :=
  match num with
  | O => []
  | S O => [start]
  | S n =>
      let step := (stop - start) / inject_Z (Z.of_nat n) in
      map (fun i => start + inject_Z (Z.of_nat i) * step) (seq 0 num)
  end.

(** [np.average(a, weights=w)]. *)
Definition average (a w : list Q) : Q :=
  Py.sum (map (fun p => fst p * snd p) (combine a w)) / Py.sum w.

End Np.

(** ** Dates and the clock *)

Definition datetime := Z.
Definition timedelta := Z.

Definition microseconds_per_day : Z := 86400000000.

(** [timedelta(days=n)]. *)
Definition timedelta_of_days (n : Z) : timedelta := (n * microseconds_per_day)%Z.

(** [(a - b).days]. *)
Definition days (d : timedelta) : Z := (d / microseconds_per_day)%Z.

(** The clock: the readings that the coming calls of [datetime.utcnow()]
    return, in order. *)
Definition Clock := nat -> datetime.

Definition M (A : Type) : Type := Clock -> A * Clock.

Definition ret {A : Type} (a : A) : M A := fun c => (a, c).

Definition bind {A B : Type} (m : M A) (k : A -> M B) : M B :=
  fun c => let (a, c') := m c in k a c'.

Notation "x <- m ;; k" := (bind m (fun x => k))
  (at level 61, m at next level, right associativity).

(** [datetime.utcnow()]. *)
Definition utcnow : M datetime := fun c => (c 0%nat, fun n => c (S n)).

(** A list comprehension [[x for x in l if p(x)]] whose condition has an
    effect: the condition runs once for each element, in order. *)
Fixpoint filterM {A : Type} (p : A -> M bool) (l : list A) : M (list A) :=
  match l with
  | [] => ret []
  | x :: xs =>
      b <- p x ;;
      r <- filterM p xs ;;
      ret (if b then x :: r else r)
  end.

(** ** models.py *)

Inductive CredentialType :=
| GOVERNMENT_ID | PROFESSIONAL | EDUCATIONAL | FINANCIAL | SOCIAL | BLOCKCHAIN.

Inductive EventType :=
| TRANSACTION | INTERACTION | VERIFICATION | ENDORSEMENT | DISPUTE
| DISPUTE_RESOLUTION | COLLABORATION | REVIEW | ACHIEVEMENT.

Inductive Outcome := POSITIVE | NEGATIVE | NEUTRAL | PENDING.

(** The three enumerations derive from [str]: a member compares equal to a
    string exactly when the string is the member's value. *)
Class StrEnum (A : Type) := value : A -> string.

#[export] Instance CredentialType_StrEnum : StrEnum CredentialType :=
  fun t =>
    match t with
    | GOVERNMENT_ID => "government_id"
    | PROFESSIONAL => "professional"
    | EDUCATIONAL => "educational"
    | FINANCIAL => "financial"
    | SOCIAL => "social"
    | BLOCKCHAIN => "blockchain"
    end.

#[export] Instance EventType_StrEnum : StrEnum EventType :=
  fun t =>
    match t with
    | TRANSACTION => "transaction"
    | INTERACTION => "interaction"
    | VERIFICATION => "verification"
    | ENDORSEMENT => "endorsement"
    | DISPUTE => "dispute"
    | DISPUTE_RESOLUTION => "dispute_resolution"
    | COLLABORATION => "collaboration"
    | REVIEW => "review"
    | ACHIEVEMENT => "achievement"
    end.

#[export] Instance Outcome_StrEnum : StrEnum Outcome :=
  fun o =>
    match o with
    | POSITIVE => "positive"
    | NEGATIVE => "negative"
    | NEUTRAL => "neutral"
    | PENDING => "pending"
    end.

(** [member == s]. *)
Definition is_str {A : Type} `{StrEnum A} (member : A) (s : string) : bool :=
  String.eqb (value member) s.

(** [member in choices]. *)
Definition in_strs {A : Type} `{StrEnum A} (member : A) (choices : list string) : bool :=
  existsb (is_str member) choices.

Record Credential := {
  c_type : CredentialType;
  issuer : string;
  issued_at : datetime;
  expires_at : option datetime;
  verification_status : string
}.

Record Connection := {
  conn_entity_id : string;
  connection_type : string;
  established_at : datetime;
  trust_score : Q;
  interaction_count : Z;
  last_interaction : option datetime
}.

Record TrustEntity := {
  id : string;
  entity_type : string;
  name : string;
  created_at : datetime;
  identity_verified : bool;
  credentials : list Credential;
  connections : list Connection;
  transparency_level : Q
}.

Record TrustEvent := {
  ev_id : string;
  entity_id : string;
  event_type : EventType;
  timestamp : datetime;
  channel : option string;
  outcome : Outcome;
  impact_score : Q;
  related_entities : list string;
  tags : list string
}.

(** The field constraints that the models validate at construction. *)
Definition valid_connection (c : Connection) : Prop :=
  0 <= trust_score c /\ trust_score c <= 100.

Definition valid_entity (entity : TrustEntity) : Prop :=
  0 <= transparency_level entity /\ transparency_level entity <= 1 /\
  Forall valid_connection (connections entity).

Definition valid_event (e : TrustEvent) : Prop :=
  0 <= impact_score e /\ impact_score e <= 10.

(** The names a [TrustEvent] instance answers to: its declared fields and
    its three properties. *)
Definition TrustEvent_attributes : list string :=
  ["id"; "entity_id"; "event_type"; "timestamp"; "channel"; "outcome";
   "impact_score"; "related_entities"; "tags"; "metadata";
   "is_positive"; "is_negative"; "is_resolved"].

(** [hasattr(e, attr)]. *)
Definition hasattr (e : TrustEvent) (attr : string) : bool :=
  Py.str_in attr TrustEvent_attributes.

(** [getattr] restricted to the attributes that hold a number; [None]
    stands for the [AttributeError] of a missing attribute. *)
Definition getattr_number (e : TrustEvent) (attr : string) : option Q :=
  if String.eqb attr "impact_score" then Some (impact_score e) else None.

(** [e.tags and any(tag in e.tags for tag in vocabulary)]. *)
Definition tagged_any (vocabulary : list string) (e : TrustEvent) : bool :=
  Py.truthy (tags e) && Py.any_in vocabulary (tags e).

(** [e.tags and tag in e.tags]. *)
Definition tagged (tag : string) (e : TrustEvent) : bool :=
  Py.truthy (tags e) && Py.str_in tag (tags e).

(** ** dimensions.py *)

Definition iz (z : Z) : Q := inject_Z z.

(** Who: identity verification and credential assessment. *)
Definition SourceDimension_calculate (entity : TrustEntity) (events : list TrustEvent) : Q :=
  let score := 0 in
  let score := if identity_verified entity then score + 30 else score in
  let credentials := credentials entity in
  let credential_score := Py.min (Py.len credentials * 10) 30 in
  let score := score + credential_score in
  let score :=
    if existsb (fun c => is_str (c_type c) "government_id") credentials
    then score + 20 else score in
  let prof_certs := filter (fun c => is_str (c_type c) "professional") credentials in
  let score := score + Py.min (Py.len prof_certs * 5) 20 in
  Py.min score 100.

(** The loop over [range(1, len(event_dates))]: the gaps, in whole days,
    between each date and the one before it in the list. *)
Fixpoint event_gaps (event_dates : list datetime) : list Z :=
  match event_dates with
  | previous :: (current :: _) as rest => days (current - previous)%Z :: event_gaps rest
  | _ => []
  end.

Definition is_positive (e : TrustEvent) : bool := is_str (outcome e) "positive".
Definition is_negative (e : TrustEvent) : bool := is_str (outcome e) "negative".

Definition age_score (now : datetime) (entity : TrustEntity) : Q :=
  let account_age_days := days (now - created_at entity)%Z in
  Py.min (iz account_age_days / 365 * 30) 30.

Definition consistency_score (events : list TrustEvent) : Q :=
  let event_dates := map timestamp events in
  let event_gaps := event_gaps event_dates in
  if Py.truthy event_gaps then
    let avg_gap := Np.mean (map iz event_gaps) in
    Py.max 0 (30 - avg_gap / 10)
  else 15.

Definition recency_score (now : datetime) (latest_event : TrustEvent) : Q :=
  let days_since_active := days (now - timestamp latest_event)%Z in
  Py.max 0 (20 - iz days_since_active / 10).

Definition longevity_score (events : list TrustEvent) : Q :=
  let positive_events := filter is_positive events in
  Py.min (Py.len positive_events / 10 * 20) 20.

(** When: time-based analysis and consistency. *)
Definition TemporalDimension_calculate (entity : TrustEntity) (events : list TrustEvent) : M Q :=
  match events with
  | [] => ret 0
  | e0 :: rest =>
      now <- utcnow ;;
      let age_score := age_score now entity in
      let consistency_score := consistency_score events in
      let latest_event := Py.max_by timestamp e0 rest in
      now' <- utcnow ;;
      let recency_score := recency_score now' latest_event in
      let longevity_score := longevity_score events in
      ret (age_score + consistency_score + recency_score + longevity_score)
  end.

Definition CHANNEL_TRUST_SCORES : list (string * Q) :=
  [("verified_api", 95); ("blockchain", 90); ("bank_transfer", 85);
   ("credit_card", 80); ("oauth", 75); ("email", 60); ("sms", 55);
   ("social_media", 40); ("anonymous", 10)].

(** [d.get(key, default)]. *)
Fixpoint dict_get (d : list (string * Q)) (key : string) (default : Q) : Q :=
  match d with
  | [] => default
  | (k, v) :: d' => if String.eqb k key then v else dict_get d' key default
  end.

(** [event.channel or "anonymous"]: a missing or empty channel. *)
Definition channel_or_anonymous (e : TrustEvent) : string :=
  match channel e with
  | None => "anonymous"
  | Some EmptyString => "anonymous"
  | Some c => c
  end.

(** The set [verified_channels], as the list of its distinct members. *)
Definition verified_channels (events : list TrustEvent) : list string :=
  nodup string_dec
    (flat_map
       (fun e =>
          match channel e with
          | Some c =>
              if Py.str_in c ["verified_api"; "blockchain"; "bank_transfer"]
              then [c] else []
          | None => []
          end)
       events).

(** How: communication and transaction channels used. *)
Definition ChannelDimension_calculate (entity : TrustEntity) (events : list TrustEvent) : Q :=
  if negb (Py.truthy events) then 0
  else
    let channel_scores :=
      map (fun e => dict_get CHANNEL_TRUST_SCORES (channel_or_anonymous e) 20) events in
    let weights := Np.linspace 0.5 1.0 (List.length channel_scores) in
    let weighted_score :=
      if Py.Qltb 0 (Py.len weights)
      then Np.average channel_scores weights
      else Np.mean channel_scores in
    let diversity_bonus := Py.min (Py.len (verified_channels events) * 5) 15 in
    Py.min (weighted_score + diversity_bonus) 100.

(** The bonus for consistency in [OutcomeDimension.calculate]. *)
Definition consistency_bonus (positive_ratio total_events : Q) : Q :=
  if Py.Qltb 0.8 positive_ratio && Py.Qltb 10 total_events then 20
  else if Py.Qltb 0.6 positive_ratio then 10
  else 0.

(** The condition of the comprehension that selects [recent_events]. *)
Definition is_recent (e : TrustEvent) : M bool :=
  now <- utcnow ;;
  ret (now - timedelta_of_days 90 <? timestamp e)%Z.

(** Results: track record of positive and negative outcomes. *)
Definition OutcomeDimension_calculate (entity : TrustEntity) (events : list TrustEvent) : M Q :=
  if negb (Py.truthy events) then ret 0
  else
    let positive_events := filter is_positive events in
    let negative_events := filter is_negative events in
    let total_events := Py.len events in
    let positive_ratio := Py.len positive_events / total_events in
    let negative_ratio := Py.len negative_events / total_events in
    let base_score := positive_ratio * 70 in
    let negative_penalty := negative_ratio * 100 in
    let consistency_bonus := consistency_bonus positive_ratio total_events in
    recent_events <- filterM is_recent events ;;
    let recency_adjustment :=
      if Py.truthy recent_events then
        let recent_positive := Py.len (filter is_positive recent_events) in
        let recent_ratio := recent_positive / Py.len recent_events in
        (recent_ratio - positive_ratio) * 20
      else 0 in
    let score := base_score - negative_penalty + consistency_bonus + recency_adjustment in
    ret (Py.max 0 (Py.min score 100)).

(** Connections: quality and trust level of the network. *)
Definition NetworkDimension_calculate (entity : TrustEntity) (events : list TrustEvent) : Q :=
  let connections := connections entity in
  let size_score := Py.min (Py.len connections / 100 * 20) 20 in
  let quality_score :=
    if Py.truthy connections then
      let avg_trust := Np.mean (map trust_score connections) in
      avg_trust * 0.4
    else 0 in
  let interaction_events :=
    filter
      (fun e => in_strs (event_type e) ["interaction"; "transaction"; "collaboration"])
      events in
  let frequency_score := Py.min (Py.len interaction_events / 50 * 20) 20 in
  let endorsement_events :=
    filter (fun e => is_str (event_type e) "endorsement" && is_positive e) events in
  let endorsement_score := Py.min (Py.len endorsement_events * 5) 20 in
  size_score + quality_score + frequency_score + endorsement_score.

(** Impact: alignment with justice and positive societal impact. *)
Definition JusticeDimension_calculate (entity : TrustEntity) (events : list TrustEvent) : Q :=
  let score := 0 in
  let community_events := filter (tagged "community_impact") events in
  let community_score := Py.min (Py.len community_events * 10) 30 in
  let score := score + community_score in
  let justice_events :=
    filter (tagged_any ["justice"; "fairness"; "equality"; "transparency"]) events in
  let justice_score := Py.min (Py.len justice_events * 8) 25 in
  let score := score + justice_score in
  let harm_prevention := filter (tagged "harm_prevention") events in
  let prevention_score := Py.min (Py.len harm_prevention * 5) 15 in
  let score := score + prevention_score in
  let resolution_events :=
    filter (fun e => is_str (event_type e) "dispute_resolution" && is_positive e) events in
  let resolution_score := Py.min (Py.len resolution_events * 10) 20 in
  let score := score + resolution_score in
  let score :=
    if negb (Qeq_bool (transparency_level entity) 0)
       && Py.Qltb 0.7 (transparency_level entity)
    then score + 10 else score in
  Py.min score 100.

(** ** scores.py *)

(** The dictionary [dimension_scores]: its six keys are fixed, its values
    are listed in insertion order by [values]. *)
Record DimensionScores := {
  source : Q;
  temporal : Q;
  channel_ : Q;
  outcome_ : Q;
  network : Q;
  justice : Q
}.

Definition values (d : DimensionScores) : list Q :=
  [source d; temporal d; channel_ d; outcome_ d; network d; justice d].

(** [sum(dimension_scores[dim] * weight for dim, weight in weights.items())],
    the weights given in the order of the dictionary literal. *)
Definition weighted (d : DimensionScores) (w_source w_temporal w_channel w_outcome w_network w_justice : Q) : Q :=
  Py.sum [source d * w_source; temporal d * w_temporal; channel_ d * w_channel;
          outcome_ d * w_outcome; network d * w_network; justice d * w_justice].

(** Community impact and social trust score. *)
Definition PeopleScore_calculate (dimension_scores : DimensionScores) (entity : TrustEntity) (events : list TrustEvent) : Q :=
  let base_score := weighted dimension_scores 0.10 0.10 0.10 0.20 0.25 0.25 in
  let community_events :=
    filter (tagged_any ["community"; "volunteer"; "charity"; "public_good"]) events in
  let community_bonus := Py.min (Py.len community_events * 2) 10 in
  let antisocial_events :=
    filter (tagged_any ["harassment"; "discrimination"; "fraud"; "violation"]) events in
  let antisocial_penalty := Py.len antisocial_events * 5 in
  Py.max 0 (Py.min (base_score + community_bonus - antisocial_penalty) 100).

(** Technical compliance and legal standing score. *)
Definition LegalScore_calculate (dimension_scores : DimensionScores) (entity : TrustEntity) (events : list TrustEvent) : Q :=
  let base_score := weighted dimension_scores 0.25 0.15 0.20 0.15 0.10 0.15 in
  let compliance_events :=
    filter (tagged_any ["compliance"; "regulatory"; "audit_passed"; "certification"]) events in
  let compliance_bonus := Py.min (Py.len compliance_events * 3) 15 in
  let violation_events :=
    filter (tagged_any ["violation"; "breach"; "illegal"; "sanctioned"]) events in
  let violation_penalty := Py.len violation_events * 10 in
  let doc_score :=
    if Py.truthy (credentials entity)
    then Py.min (Py.len (credentials entity) * 2) 10
    else 0 in
  Py.max 0 (Py.min (base_score + compliance_bonus + doc_score - violation_penalty) 100).

(** Authority approval and institutional trust score. *)
Definition StateScore_calculate (dimension_scores : DimensionScores) (entity : TrustEntity) (events : list TrustEvent) : Q :=
  let base_score := weighted dimension_scores 0.30 0.15 0.25 0.10 0.10 0.10 in
  let gov_credentials :=
    filter
      (fun c => is_str (c_type c) "government_id"
                && String.eqb (verification_status c) "verified")
      (credentials entity) in
  let gov_bonus := Py.len gov_credentials * 15 in
  let institutional_events :=
    filter (tagged_any ["government"; "institutional"; "official"; "licensed"]) events in
  let inst_bonus := Py.min (Py.len institutional_events * 2) 10 in
  let anti_events :=
    filter (tagged_any ["protest"; "dissent"; "whistleblower"; "activist"]) events in
  let anti_penalty := Py.len anti_events * 2 in
  Py.max 0 (Py.min (base_score + gov_bonus + inst_bonus - anti_penalty) 100).

Module ChittyScore.

Definition base_score (dimension_scores : DimensionScores) : Q :=
  weighted dimension_scores 0.10 0.10 0.10 0.25 0.15 0.30.

Definition justice_bonus (events : list TrustEvent) : Q :=
  let justice_events :=
    filter
      (tagged_any ["justice"; "fairness"; "helped_vulnerable"; "truth_telling";
                   "accountability"; "reparation"; "reform"])
      events in
  Py.min (Py.len justice_events * 4) 20.

Definition impact_bonus (events : list TrustEvent) : Q :=
  let impact_events :=
    filter (fun e => is_positive e && Py.Qltb 5 (impact_score e)) events in
  Py.min (Py.sum (map impact_score impact_events) / 10) 15.

Definition violation_events (events : list TrustEvent) : list TrustEvent :=
  filter (tagged "violation") events.

Definition justice_violations (events : list TrustEvent) : list TrustEvent :=
  filter (fun e => Py.any_in ["civil_disobedience"; "whistleblower"] (tags e))
         (violation_events events).

Definition violation_penalty (events : list TrustEvent) : Q :=
  let regular_violations :=
    Py.len (violation_events events) - Py.len (justice_violations events) in
  regular_violations * 5 + Py.len (justice_violations events) * 1.

Definition transformation_bonus (events : list TrustEvent) : Q :=
  let transformation_events := filter (tagged "transformation") events in
  if Py.truthy transformation_events then 10 else 0.

(** Justice and outcomes focused score. *)
Definition calculate (dimension_scores : DimensionScores) (entity : TrustEntity) (events : list TrustEvent) : Q :=
  Py.max 0
    (Py.min
       (base_score dimension_scores + justice_bonus events + impact_bonus events
        + transformation_bonus events - violation_penalty events)
       100).

End ChittyScore.

(** ** core.py *)

Record TrustScore := {
  source_score : Q;
  temporal_score : Q;
  channel_score : Q;
  outcome_score : Q;
  network_score : Q;
  justice_score : Q;
  people_score : Q;
  legal_score : Q;
  state_score : Q;
  chitty_score : Q;
  calculated_at : datetime;
  confidence : Q;
  explanation : list (string * string)
}.

(** The property [TrustScore.composite_score]. *)
Definition composite_score (self : TrustScore) : Q :=
  let scores :=
    [source_score self * 0.15;
     temporal_score self * 0.10;
     channel_score self * 0.15;
     outcome_score self * 0.20;
     network_score self * 0.15;
     justice_score self * 0.25] in
  Py.sum scores.

(** One entry of [_generate_explanation]: the sentence for a score, by its
    band. *)
Definition explain (score : Q) (low middle high : string) : string :=
  if Py.Qltb score 50 then low
  else if Py.Qltb score 80 then middle
  else high.

Definition _generate_explanation (entity : TrustEntity) (scores : DimensionScores) : list (string * string) :=
  [("source", explain (source scores)
      "Limited verification of identity and credentials"
      "Partially verified identity with some credentials"
      "Fully verified identity with strong credentials");
   ("temporal", explain (temporal scores)
      "Limited or inconsistent history"
      "Moderate history with some gaps"
      "Long, consistent history of positive behavior");
   ("channel", explain (channel_ scores)
      "Uses unverified or low-trust channels"
      "Mix of verified and unverified channels"
      "Primarily uses verified, high-trust channels");
   ("outcome", explain (outcome_ scores)
      "Poor track record of outcomes"
      "Mixed outcomes with room for improvement"
      "Excellent track record of positive outcomes");
   ("network", explain (network scores)
      "Limited or low-trust network connections"
      "Growing network with mixed trust levels"
      "Strong network of high-trust connections");
   ("justice", explain (justice scores)
      "Actions show limited alignment with justice"
      "Generally justice-aligned with some concerns"
      "Strongly aligned with justice principles")].

Definition event_confidence (events : list TrustEvent) : Q :=
  Py.min (Py.len events / 100) 1.0 * 0.5.

Definition consistency_confidence (scores : DimensionScores) : Q :=
  let score_variance := Np.var (values scores) in
  (1 - score_variance / 5000) * 0.3.

Definition recency_confidence (events : list TrustEvent) : M Q :=
  match events with
  | e0 :: rest =>
      let latest_event := Py.max_by timestamp e0 rest in
      now <- utcnow ;;
      let days_old := days (now - timestamp latest_event)%Z in
      ret (Py.max 0 (1 - iz days_old / 365) * 0.2)
  | [] => ret 0
  end.

Definition _calculate_confidence (events : list TrustEvent) (scores : DimensionScores) : M Q :=
  let event_confidence := event_confidence events in
  let consistency_confidence := consistency_confidence scores in
  recency_confidence <- recency_confidence events ;;
  let total_confidence := event_confidence + consistency_confidence + recency_confidence in
  ret (Py.min (Py.max total_confidence 0.1) 1.0).

(** [TrustEngine.calculate_trust] on an entity that is an object. *)
Definition TrustEngine_calculate_trust (entity : TrustEntity) (events : list TrustEvent) : M TrustScore :=
  let source_score := SourceDimension_calculate entity events in
  temporal_score <- TemporalDimension_calculate entity events ;;
  let channel_score := ChannelDimension_calculate entity events in
  outcome_score <- OutcomeDimension_calculate entity events ;;
  let network_score := NetworkDimension_calculate entity events in
  let justice_score := JusticeDimension_calculate entity events in
  let dimension_scores :=
    {| source := source_score; temporal := temporal_score;
       channel_ := channel_score; outcome_ := outcome_score;
       network := network_score; justice := justice_score |} in
  let people_score := PeopleScore_calculate dimension_scores entity events in
  let legal_score := LegalScore_calculate dimension_scores entity events in
  let state_score := StateScore_calculate dimension_scores entity events in
  let chitty_score := ChittyScore.calculate dimension_scores entity events in
  let explanation := _generate_explanation entity dimension_scores in
  confidence <- _calculate_confidence events dimension_scores ;;
  calculated_at <- utcnow ;;
  ret {| source_score := source_score;
         temporal_score := temporal_score;
         channel_score := channel_score;
         outcome_score := outcome_score;
         network_score := network_score;
         justice_score := justice_score;
         people_score := people_score;
         legal_score := legal_score;
         state_score := state_score;
         chitty_score := chitty_score;
         calculated_at := calculated_at;
         confidence := confidence;
         explanation := explanation |}.

(** What a call can raise. *)
Inductive Error :=
| AttributeError (message : string)
| TypeError (message : string)
| ValidationError (message : string).

(** A [datetime] object is naive, or aware when it carries a [tzinfo].
    [datetime.utcnow()] is naive, and Python refuses, with a [TypeError], to
    subtract or to compare a naive and an aware datetime; two aware
    datetimes are subtracted and compared by their instants. *)
Record pydatetime := {
  instant : datetime;
  aware : bool
}.

Definition naive (t : datetime) : pydatetime := {| instant := t; aware := false |}.

(** [a - b]. *)
Definition datetime_sub (a b : pydatetime) : Error + timedelta :=
  if Bool.eqb (aware a) (aware b) then inr (instant a - instant b)%Z
  else inl (TypeError "can't subtract offset-naive and offset-aware datetimes").

(** [a > b]. *)
Definition datetime_gt (a b : pydatetime) : Error + bool :=
  if Bool.eqb (aware a) (aware b) then inr (instant b <? instant a)%Z
  else inl (TypeError "can't compare offset-naive and offset-aware datetimes").

(** The objects that the entry point receives: the records of the model
    (where a datetime is its instant), together with what the models accept
    besides and the arithmetic of the scorers depends on, namely whether
    [created_at] and each [timestamp] is aware. *)
Record EntityObject := {
  entity_of : TrustEntity;
  created_at_aware : bool
}.

Record EventObject := {
  event_of : TrustEvent;
  timestamp_aware : bool
}.

(** The objects whose datetimes are naive. *)
Definition naive_entity (entity : TrustEntity) : EntityObject :=
  {| entity_of := entity; created_at_aware := false |}.

Definition naive_event (e : TrustEvent) : EventObject :=
  {| event_of := e; timestamp_aware := false |}.

Definition created_at_object (entity : EntityObject) : pydatetime :=
  {| instant := created_at (entity_of entity); aware := created_at_aware entity |}.

Definition timestamp_object (e : EventObject) : pydatetime :=
  {| instant := timestamp (event_of e); aware := timestamp_aware e |}.

(** Code that reads the clock and may raise: an exception ends the
    computation where it is raised. *)
Definition ME (A : Type) : Type := Clock -> (Error + A) * Clock.

Definition ret_ok {A : Type} (a : A) : ME A := fun c => (inr a, c).

Definition raise {A : Type} (err : Error) : ME A := fun c => (inl err, c).

Definition bind_ok {A B : Type} (m : ME A) (k : A -> ME B) : ME B :=
  fun c =>
    match m c with
    | (inl err, c') => (inl err, c')
    | (inr a, c') => k a c'
    end.

Notation "x <~ m ;; k" := (bind_ok m (fun x => k))
  (at level 61, m at next level, right associativity).

(** The value of an expression that may raise. *)
Definition of_result {A : Type} (r : Error + A) : ME A := fun c => (r, c).

(** [datetime.utcnow()], a naive datetime. *)
Definition utcnow_object : ME pydatetime :=
  fun c => (inr (naive (c 0%nat)), fun n => c (S n)).

(** A comprehension whose condition reads the clock and may raise. *)
Fixpoint filterME {A : Type} (p : A -> ME bool) (l : list A) : ME (list A) :=
  match l with
  | [] => ret_ok []
  | x :: xs =>
      b <~ p x ;;
      r <~ filterME p xs ;;
      ret_ok (if b then x :: r else r)
  end.

(** The scorers that compute with datetimes, on the objects. *)
Module Objects.

(** The loop over [range(1, len(event_dates))]. *)
Fixpoint event_gaps (event_dates : list pydatetime) : Error + list Z :=
  match event_dates with
  | previous :: (current :: _) as rest =>
      match datetime_sub current previous with
      | inl err => inl err
      | inr gap =>
          match event_gaps rest with
          | inl err => inl err
          | inr gaps => inr (days gap :: gaps)
          end
      end
  | _ => inr []
  end.

(** [max(events, key=lambda e: e.timestamp)], from the first event on: a
    later event replaces the best one when its timestamp is greater. *)
Fixpoint max_by_timestamp (best : EventObject) (rest : list EventObject) : Error + EventObject :=
  match rest with
  | [] => inr best
  | e :: rest' =>
      match datetime_gt (timestamp_object e) (timestamp_object best) with
      | inl err => inl err
      | inr true => max_by_timestamp e rest'
      | inr false => max_by_timestamp best rest'
      end
  end.

Definition TemporalDimension_calculate (entity : EntityObject) (events : list EventObject) : ME Q :=
  match events with
  | [] => ret_ok 0
  | e0 :: rest =>
      now <~ utcnow_object ;;
      account_age <~ of_result (datetime_sub now (created_at_object entity)) ;;
      let account_age_days := days account_age in
      let age_score := Py.min (iz account_age_days / 365 * 30) 30 in
      let event_dates := map timestamp_object events in
      event_gaps <~ of_result (event_gaps event_dates) ;;
      let consistency_score :=
        if Py.truthy event_gaps then
          let avg_gap := Np.mean (map iz event_gaps) in
          Py.max 0 (30 - avg_gap / 10)
        else 15 in
      latest_event <~ of_result (max_by_timestamp e0 rest) ;;
      now' <~ utcnow_object ;;
      since_active <~ of_result (datetime_sub now' (timestamp_object latest_event)) ;;
      let days_since_active := days since_active in
      let recency_score := Py.max 0 (20 - iz days_since_active / 10) in
      let longevity_score := longevity_score (map event_of events) in
      ret_ok (age_score + consistency_score + recency_score + longevity_score)
  end.

(** The condition of the comprehension that selects [recent_events]. *)
Definition is_recent (e : EventObject) : ME bool :=
  now <~ utcnow_object ;;
  of_result
    (datetime_gt (timestamp_object e)
       {| instant := (instant now - timedelta_of_days 90)%Z; aware := aware now |}).

Definition OutcomeDimension_calculate (entity : EntityObject) (events : list EventObject) : ME Q :=
  if negb (Py.truthy events) then ret_ok 0
  else
    let positive_events := filter is_positive (map event_of events) in
    let negative_events := filter is_negative (map event_of events) in
    let total_events := Py.len events in
    let positive_ratio := Py.len positive_events / total_events in
    let negative_ratio := Py.len negative_events / total_events in
    let base_score := positive_ratio * 70 in
    let negative_penalty := negative_ratio * 100 in
    let consistency_bonus := consistency_bonus positive_ratio total_events in
    recent_events <~ filterME is_recent events ;;
    let recency_adjustment :=
      if Py.truthy recent_events then
        let recent_positive :=
          Py.len (filter is_positive (map event_of recent_events)) in
        let recent_ratio := recent_positive / Py.len recent_events in
        (recent_ratio - positive_ratio) * 20
      else 0 in
    let score := base_score - negative_penalty + consistency_bonus + recency_adjustment in
    ret_ok (Py.max 0 (Py.min score 100)).

Definition recency_confidence (events : list EventObject) : ME Q :=
  match events with
  | e0 :: rest =>
      latest_event <~ of_result (max_by_timestamp e0 rest) ;;
      now <~ utcnow_object ;;
      age <~ of_result (datetime_sub now (timestamp_object latest_event)) ;;
      let days_old := days age in
      ret_ok (Py.max 0 (1 - iz days_old / 365) * 0.2)
  | [] => ret_ok 0
  end.

Definition _calculate_confidence (events : list EventObject) (scores : DimensionScores) : ME Q :=
  let event_confidence := event_confidence (map event_of events) in
  let consistency_confidence := consistency_confidence scores in
  recency_confidence <~ recency_confidence events ;;
  let total_confidence := event_confidence + consistency_confidence + recency_confidence in
  ret_ok (Py.min (Py.max total_confidence 0.1) 1.0).

(** [TrustEngine.calculate_trust] on an entity that is an object. *)
Definition TrustEngine_calculate_trust (entity : EntityObject) (events : list EventObject) : ME TrustScore :=
  let source_score := SourceDimension_calculate (entity_of entity) (map event_of events) in
  temporal_score <~ TemporalDimension_calculate entity events ;;
  let channel_score := ChannelDimension_calculate (entity_of entity) (map event_of events) in
  outcome_score <~ OutcomeDimension_calculate entity events ;;
  let network_score := NetworkDimension_calculate (entity_of entity) (map event_of events) in
  let justice_score := JusticeDimension_calculate (entity_of entity) (map event_of events) in
  let dimension_scores :=
    {| source := source_score; temporal := temporal_score;
       channel_ := channel_score; outcome_ := outcome_score;
       network := network_score; justice := justice_score |} in
  let people_score :=
    PeopleScore_calculate dimension_scores (entity_of entity) (map event_of events) in
  let legal_score :=
    LegalScore_calculate dimension_scores (entity_of entity) (map event_of events) in
  let state_score :=
    StateScore_calculate dimension_scores (entity_of entity) (map event_of events) in
  let chitty_score :=
    ChittyScore.calculate dimension_scores (entity_of entity) (map event_of events) in
  let explanation := _generate_explanation (entity_of entity) dimension_scores in
  confidence <~ _calculate_confidence events dimension_scores ;;
  calculated_at <~ utcnow_object ;;
  ret_ok {| source_score := source_score;
            temporal_score := temporal_score;
            channel_score := channel_score;
            outcome_score := outcome_score;
            network_score := network_score;
            justice_score := justice_score;
            people_score := people_score;
            legal_score := legal_score;
            state_score := state_score;
            chitty_score := chitty_score;
            calculated_at := instant calculated_at;
            confidence := confidence;
            explanation := explanation |}.

End Objects.

(** The entry point [calculate_trust].  The argument [entity] may be [None];
    the first thing the engine does with it is to read
    [entity.identity_verified] in [SourceDimension.calculate], which raises
    [AttributeError] on [None].  Nothing in the call compares
    [event.entity_id] with [entity.id]. *)
Definition calculate_trust (entity : option EntityObject) (events : list EventObject) : ME TrustScore :=
  match entity with
  | None => raise (AttributeError "'NoneType' object has no attribute 'identity_verified'")
  | Some entity => Objects.TrustEngine_calculate_trust entity events
  end.

(** ** analytics.py *)

Record TrustPattern := {
  pattern_type : string;
  description : string;
  frequency : Q;
  last_occurrence : datetime;
  risk_level : string;
  recommendation : string
}.

(** [max(l, key=lambda e: e.timestamp).timestamp]; the call sites guard it
    with a length test, so the empty case is never reached. *)
Definition last_timestamp (l : list TrustEvent) : datetime :=
  match l with
  | [] => 0%Z
  | e0 :: rest => timestamp (Py.max_by timestamp e0 rest)
  end.

Definition high_value_events (events : list TrustEvent) : list TrustEvent :=
  filter
    (fun e =>
       is_str (event_type e) "transaction"
       && hasattr e "value"
       && match getattr_number e "value" with
          | Some v => Py.Qltb 1000 v
          | None => false
          end)
    events.

Definition community_events (events : list TrustEvent) : list TrustEvent :=
  filter
    (fun e => in_strs (event_type e) ["community_service"; "endorsement"; "collaboration"])
    events.

Definition professional_events (events : list TrustEvent) : list TrustEvent :=
  filter
    (fun e => in_strs (event_type e) ["certification"; "professional_development"; "training"])
    events.

(** [TrustAnalytics.detect_patterns]. *)
Definition detect_patterns (entity : TrustEntity) (events : list TrustEvent) : list TrustPattern :=
  let patterns : list TrustPattern := [] in
  let high_value_events := high_value_events events in
  let patterns :=
    if Py.Qltb 5 (Py.len high_value_events) then
      (patterns ++
      [{| pattern_type := "high_value_activity";
          description := "Regular high-value transactions with consistent positive outcomes";
          frequency := Py.len high_value_events;
          last_occurrence := last_timestamp high_value_events;
          risk_level := "low";
          recommendation := "Suitable for high-value engagements" |}])%list
    else patterns in
  let community_events := community_events events in
  let patterns :=
    if Py.Qltb 8 (Py.len community_events) then
      (patterns ++
      [{| pattern_type := "community_engagement";
          description := "Strong pattern of community involvement and collaborative activities";
          frequency := Py.len community_events;
          last_occurrence := last_timestamp community_events;
          risk_level := "low";
          recommendation := "Excellent for community-focused initiatives" |}])%list
    else patterns in
  let professional_events := professional_events events in
  let patterns :=
    if Py.Qltb 3 (Py.len professional_events) then
      (patterns ++
      [{| pattern_type := "professional_development";
          description := "Consistent investment in professional growth and skill development";
          frequency := Py.len professional_events;
          last_occurrence := last_timestamp professional_events;
          risk_level := "low";
          recommendation := "Strong candidate for professional partnerships" |}])%list
    else patterns in
  patterns.

(** * Specification-side notions and sample data *)

Definition has_pattern (t : string) (patterns : list TrustPattern) : Prop :=
  exists p, In p patterns /\ pattern_type p = t.



Module Samples.

Definition day (n : Z) : datetime := (n * microseconds_per_day)%Z.

(** An unverified entity without credentials or connections, created at
    day 0. *)
Definition alice : TrustEntity :=
  {| id := "alice"; entity_type := "person"; name := "Alice";
     created_at := day 0; identity_verified := false;
     credentials := []; connections := []; transparency_level := 0.5 |}.

(** An event of [alice] at day [t]. *)
Definition event (kind : EventType) (t : Z) (o : Outcome) (labels : list string) : TrustEvent :=
  {| ev_id := "evt"; entity_id := "alice"; event_type := kind;
     timestamp := day t; channel := Some "email"; outcome := o;
     impact_score := 1; related_entities := []; tags := labels |}.

(** An event recorded for another entity. *)
Definition foreign_event : TrustEvent :=
  {| ev_id := "evt"; entity_id := "bob"; event_type := TRANSACTION;
     timestamp := day 10; channel := Some "email"; outcome := POSITIVE;
     impact_score := 1; related_entities := []; tags := [] |}.

(** A clock that stands still at day [t]. *)
Definition clock_at (t : Z) : Clock := fun _ => day t.

End Samples.

(** Whether an assessment computes with an aware datetime: there are
    events, and [created_at] or the timestamp of an event is aware. *)
Definition meets_aware_datetime (entity : EntityObject) (events : list EventObject) : bool :=
  Py.truthy events && (created_at_aware entity || existsb timestamp_aware events).

(** The same entity under another [id], and the same event recorded for
    another [entity_id]. *)
Definition rename (new_id : string) (entity : TrustEntity) : TrustEntity :=
  {| id := new_id;
     entity_type := entity_type entity;
     name := name entity;
     created_at := created_at entity;
     identity_verified := identity_verified entity;
     credentials := credentials entity;
     connections := connections entity;
     transparency_level := transparency_level entity |}.

Definition with_id (new_id : string) (entity : EntityObject) : EntityObject :=
  {| entity_of := rename new_id (entity_of entity);
     created_at_aware := created_at_aware entity |}.

Definition for_entity (new_entity_id : string) (e : TrustEvent) : TrustEvent :=
  {| ev_id := ev_id e;
     entity_id := new_entity_id;
     event_type := event_type e;
     timestamp := timestamp e;
     channel := channel e;
     outcome := outcome e;
     impact_score := impact_score e;
     related_entities := related_entities e;
     tags := tags e |}.

Definition with_entity_id (new_entity_id : string) (e : EventObject) : EventObject :=
  {| event_of := for_entity new_entity_id (event_of e);
     timestamp_aware := timestamp_aware e |}.

(** The events with the given [entity_id]s written into them, in order;
    where the [entity_id]s run out the events are left as they are. *)
Fixpoint relabel (entity_ids : list string) (events : list EventObject) : list EventObject :=
  match entity_ids, events with
  | s :: entity_ids', e :: events' => with_entity_id s e :: relabel entity_ids' events'
  | _, _ => events
  end.

(** Some event of the list is recorded for another entity. *)
Definition foreign_events (entity : EntityObject) (events : list EventObject) : Prop :=
  exists e, In e events /\ entity_id (event_of e) <> id (entity_of entity).

(** The tags of the policy, the way the specification reads them. *)
Definition has_tag (tag : string) (e : TrustEvent) : bool :=
  if in_dec string_dec tag (tags e) then true else false.

Definition for_a_cause (e : TrustEvent) : bool :=
  has_tag "civil_disobedience" e || has_tag "whistleblower" e.

Definition plain_violation (e : TrustEvent) : bool :=
  has_tag "violation" e && negb (for_a_cause e).

Definition violation_for_a_cause (e : TrustEvent) : bool :=
  has_tag "violation" e && for_a_cause e.

(** The outcome formula in the words of the specification.  [least] is the
    least number of events for the larger consistency bonus. *)
Module OutcomeSpec.

Definition positive (e : TrustEvent) : bool :=
  match outcome e with POSITIVE => true | _ => false end.

Definition negative (e : TrustEvent) : bool :=
  match outcome e with NEGATIVE => true | _ => false end.

Definition count {A : Type} (p : A -> bool) (l : list A) : Q :=
  inject_Z (Z.of_nat (List.length (filter p l))).

Definition total {A : Type} (l : list A) : Q :=
  inject_Z (Z.of_nat (List.length l)).

Definition positive_ratio (events : list TrustEvent) : Q :=
  count positive events / total events.

Definition negative_ratio (events : list TrustEvent) : Q :=
  count negative events / total events.

Definition exceeds (x threshold : Q) : bool :=
  if Qlt_le_dec threshold x then true else false.

Definition consistency_bonus (least : nat) (events : list TrustEvent) : Q :=
  if exceeds (positive_ratio events) 0.8 && (least <=? List.length events)%nat then 20
  else if exceeds (positive_ratio events) 0.6 then 10
  else 0.

(** The events of the last 90 days: the event at position [k] is compared
    with the [k]-th reading of the clock. *)
Fixpoint last_90_days (c : Clock) (events : list TrustEvent) : list TrustEvent :=
  match events with
  | [] => []
  | e :: events' =>
      let rest := last_90_days (fun n => c (S n)) events' in
      if (c 0%nat - 90 * microseconds_per_day <? timestamp e)%Z
      then e :: rest else rest
  end.

Definition recency_adjustment (c : Clock) (events : list TrustEvent) : Q :=
  match last_90_days c events with
  | [] => 0
  | recent => (positive_ratio recent - positive_ratio events) * 20
  end.

Definition clamp (x : Q) : Q := Qmax 0 (Qmin x 100).

Definition score (least : nat) (c : Clock) (events : list TrustEvent) : Q :=
  match events with
  | [] => 0
  | _ =>
      clamp (positive_ratio events * 70 - negative_ratio events * 100
             + consistency_bonus least events + recency_adjustment c events)
  end.

End OutcomeSpec.

(** The values that idempotence compares: everything but [calculated_at]. *)
Definition same_assessment (s1 s2 : TrustScore) : Prop :=
  source_score s1 == source_score s2 /\
  temporal_score s1 == temporal_score s2 /\
  channel_score s1 == channel_score s2 /\
  outcome_score s1 == outcome_score s2 /\
  network_score s1 == network_score s2 /\
  justice_score s1 == justice_score s2 /\
  people_score s1 == people_score s2 /\
  legal_score s1 == legal_score s2 /\
  state_score s1 == state_score s2 /\
  chitty_score s1 == chitty_score s2 /\
  confidence s1 == confidence s2.

(** The clock after [k] readings. *)
Definition shift (k : nat) (c : Clock) : Clock := fun n => c (k + n)%nat.

(** The number of clock readings that each effectful step of an assessment
    takes, and their total before the result is stamped with
    [calculated_at]. *)
Definition temporal_readings (events : list TrustEvent) : nat :=
  match events with [] => 0 | _ => 2 end.

Definition outcome_readings (events : list TrustEvent) : nat := List.length events.

Definition confidence_readings (events : list TrustEvent) : nat :=
  match events with [] => 0 | _ => 1 end.

Definition readings (events : list TrustEvent) : nat :=
  temporal_readings events + outcome_readings events + confidence_readings events.

(** What the scorers use of the clock when they assess [events] of
    [entity]: the whole days from [created_at] to the first reading, the
    whole days from the latest event to the second reading and to the
    reading of the confidence, and, for the event at position [k], on which
    side of the 90-day window the reading taken for it puts the event.  Two
    clocks are the same to the day when all of these agree. *)
Definition same_to_the_day (entity : TrustEntity) (events : list TrustEvent) (c1 c2 : Clock) : Prop :=
  match events with
  | [] => True
  | e0 :: rest =>
      let latest_event := Py.max_by timestamp e0 rest in
      let n := List.length events in
      days (c1 0%nat - created_at entity)%Z = days (c2 0%nat - created_at entity)%Z /\
      days (c1 1%nat - timestamp latest_event)%Z = days (c2 1%nat - timestamp latest_event)%Z /\
      (forall k e, nth_error events k = Some e ->
         (c1 (2 + k)%nat - timedelta_of_days 90 <? timestamp e)%Z =
         (c2 (2 + k)%nat - timedelta_of_days 90 <? timestamp e)%Z) /\
      days (c1 (2 + n)%nat - timestamp latest_event)%Z =
      days (c2 (2 + n)%nat - timestamp latest_event)%Z
  end.

(** The dates are in chronological order. *)
Fixpoint chronological (dates : list datetime) : Prop :=
  match dates with
  | previous :: (current :: _) as rest =>
      (previous <= current)%Z /\ chronological rest
  | _ => True
  end.

(** * analytics.py: insights and confidence intervals *)

(** [sorted(l, key=...)]: a stable sort, here by insertion from the right.
    [before y x] tells that [y] goes strictly before [x]; an element is
    inserted after the elements that go strictly before it and in front of
    its equals, which keeps equal elements in their original order. *)
Fixpoint insert_by {A : Type} (before : A -> A -> bool) (x : A) (l : list A) : list A :=
  match l with
  | [] => [x]
  | y :: l' => if before y x then y :: insert_by before x l' else x :: l
  end.

Definition sorted_by {A : Type} (before : A -> A -> bool) (l : list A) : list A :=
  fold_right (insert_by before) [] l.

(** The condition [e.timestamp > datetime.utcnow() - timedelta(days=n)] of
    a comprehension: one clock reading for each element. *)
Definition newer_than (n : Z) (e : TrustEvent) : M bool :=
  now <- utcnow ;;
  ret (now - timedelta_of_days n <? timestamp e)%Z.

Module Analytics.

(** A value that an f-string formats, with the format it is given. *)
Inductive Formatted :=
| FBool (b : bool)
| FInt (n : Q)
| FFixed1 (x : Q)
| FJoin (separator : string) (items : list string).

(** A line of supporting evidence: a string literal, or an f-string kept
    as its text around the value it formats (the conversion of floats to
    decimal text is not modelled). *)
Inductive Evidence :=
| Literal (text : string)
| FString (prefix : string) (v : Formatted) (suffix : string).

Record TrustInsight := {
  category : string;
  title : string;
  description : string;
  impact : string;
  confidence : Q;
  supporting_evidence : list Evidence;
  trend : option string
}.

Definition _analyze_identity_verification (entity : TrustEntity) (scores : DimensionScores) : list TrustInsight :=
  let source_score := source scores in
  if Qle_bool 85 source_score then
    [{| category := "identity";
        title := "Strong Identity Verification";
        description := "Multiple verified credentials and government ID confirmation provide high confidence in identity authenticity.";
        impact := "positive";
        confidence := 92.0;
        supporting_evidence :=
          [FString "Identity verified: " (FBool (identity_verified entity)) "";
           FString "Credentials count: " (FInt (Py.len (credentials entity))) "";
           Literal "Government ID verified"];
        trend := None |}]
  else if Py.Qltb source_score 50 then
    [{| category := "identity";
        title := "Identity Verification Concerns";
        description := "Limited identity verification may pose risks for high-trust interactions.";
        impact := "negative";
        confidence := 78.0;
        supporting_evidence :=
          [Literal "Missing government ID verification";
           Literal "Limited professional credentials";
           Literal "Low source dimension score"];
        trend := Some "stable" |}]
  else [].

Definition _analyze_behavioral_patterns (events : list TrustEvent) (scores : DimensionScores) : M (list TrustInsight) :=
  if negb (Py.truthy events) then ret []
  else
    let positive_events := filter is_positive events in
    let insights :=
      if Py.Qltb 0.85 (Py.len positive_events / Py.len events) then
        [{| category := "behavior";
            title := "Exceptional Outcome Consistency";
            description := "Consistently delivers positive outcomes across interactions, indicating high reliability.";
            impact := "positive";
            confidence := 88.0;
            supporting_evidence :=
              [FString "Positive outcome rate: "
                 (FFixed1 (Py.len positive_events / Py.len events * 100)) "%";
               FString "Total events analyzed: " (FInt (Py.len events)) "";
               Literal "Low negative event frequency"];
            trend := Some "stable" |}]
      else [] in
    recent_events <- filterM (newer_than 30) events ;;
    ret (if Py.Qltb 10 (Py.len recent_events) then
           insights ++
           [{| category := "activity";
               title := "High Recent Activity";
               description := "Strong recent engagement suggests active and reliable presence.";
               impact := "positive";
               confidence := 75.0;
               supporting_evidence :=
                 [FString "Recent events (30 days): " (FInt (Py.len recent_events)) "";
                  Literal "Consistent activity pattern";
                  Literal "Regular interaction frequency"];
               trend := None |}]
         else insights)%list.

(** The set [connection_types], as the list of its distinct members (the
    order in which a set lists its members is not specified by Python). *)
Definition connection_types (connections : list Connection) : list string :=
  nodup string_dec (map connection_type connections).

Definition _analyze_network_quality (entity : TrustEntity) (events : list TrustEvent) : list TrustInsight :=
  let connections := connections entity in
  if Py.truthy connections then
    let avg_trust := Np.mean (map trust_score connections) in
    let high_trust_connections :=
      filter (fun c => Py.Qltb 80 (trust_score c)) connections in
    let insights :=
      if Py.Qltb 85 avg_trust then
        [{| category := "network";
            title := "High-Quality Network";
            description := "Connected to highly trusted entities, indicating strong professional or social standing.";
            impact := "positive";
            confidence := 82.0;
            supporting_evidence :=
              [FString "Average network trust: " (FFixed1 avg_trust) "";
               FString "High-trust connections: " (FInt (Py.len high_trust_connections)) "";
               FString "Total connections: " (FInt (Py.len connections)) ""];
            trend := None |}]
      else [] in
    let connection_types := connection_types connections in
    (if Qle_bool 3 (Py.len connection_types) then
       insights ++
       [{| category := "network";
           title := "Diverse Network Connections";
           description := "Multiple types of professional and social connections demonstrate broad engagement.";
           impact := "positive";
           confidence := 70.0;
           supporting_evidence :=
             [FString "Connection types: " (FInt (Py.len connection_types)) "";
              FString "Types: " (FJoin ", " connection_types) "";
              Literal "Broad professional engagement"];
           trend := None |}]
     else insights)%list
  else [].

Definition _analyze_risk_factors (entity : TrustEntity) (events : list TrustEvent) (scores : DimensionScores) : M (list TrustInsight) :=
  let negative_events := filter is_negative events in
  recent_negative <- filterM (newer_than 90) negative_events ;;
  let insights :=
    if Py.Qltb 2 (Py.len recent_negative) then
      [{| category := "risk";
          title := "Recent Negative Outcomes";
          description := "Multiple recent negative outcomes warrant careful consideration for future engagements.";
          impact := "negative";
          confidence := 85.0;
          supporting_evidence :=
            [FString "Recent negative events: " (FInt (Py.len recent_negative)) "";
             Literal "Pattern of concerning outcomes";
             Literal "Elevated risk profile"];
          trend := Some "declining" |}]
    else [] in
  ret (if Py.Qltb (transparency_level entity) 0.5 then
         insights ++
         [{| category := "risk";
             title := "Limited Transparency";
             description := "Low transparency level may indicate reluctance to share information or verify claims.";
             impact := "negative";
             confidence := 70.0;
             supporting_evidence :=
               [FString "Transparency level: " (FFixed1 (transparency_level entity)) "";
                Literal "Limited information disclosure";
                Literal "Verification challenges"];
             trend := None |}]
       else insights)%list.

(** The two halves of the events sorted by timestamp: [sorted_events[n//2:]]
    and [sorted_events[:n//2]]. *)
Definition sorted_events (events : list TrustEvent) : list TrustEvent :=
  sorted_by (fun y x => (timestamp y <? timestamp x)%Z) events.

Definition recent_half (events : list TrustEvent) : list TrustEvent :=
  skipn (List.length (sorted_events events) / 2) (sorted_events events).

Definition early_half (events : list TrustEvent) : list TrustEvent :=
  firstn (List.length (sorted_events events) / 2) (sorted_events events).

Definition positive_rate (half : list TrustEvent) : Q :=
  Py.len (filter is_positive half) / Py.len half.

Definition _analyze_temporal_trends (events : list TrustEvent) (scores : DimensionScores) : list TrustInsight :=
  if Py.Qltb (Py.len events) 5 then []
  else
    let recent_positive_rate := positive_rate (recent_half events) in
    let early_positive_rate := positive_rate (early_half events) in
    if Py.Qltb (early_positive_rate + 0.2) recent_positive_rate then
      [{| category := "trend";
          title := "Improving Performance Trend";
          description := "Significant improvement in outcome quality over time demonstrates growth and learning.";
          impact := "positive";
          confidence := 78.0;
          supporting_evidence :=
            [FString "Recent positive rate: " (FFixed1 (recent_positive_rate * 100)) "%";
             FString "Early positive rate: " (FFixed1 (early_positive_rate * 100)) "%";
             Literal "Upward trajectory in performance"];
          trend := Some "improving" |}]
    else if Py.Qltb (recent_positive_rate + 0.2) early_positive_rate then
      [{| category := "trend";
          title := "Declining Performance Trend";
          description := "Recent decrease in positive outcomes may indicate changing circumstances or capabilities.";
          impact := "negative";
          confidence := 82.0;
          supporting_evidence :=
            [FString "Recent positive rate: " (FFixed1 (recent_positive_rate * 100)) "%";
             FString "Early positive rate: " (FFixed1 (early_positive_rate * 100)) "%";
             Literal "Downward trajectory in performance"];
          trend := Some "declining" |}]
    else [].

(** The insights of the five analyses, in the order [generate_insights]
    collects them. *)
Definition collected_insights (entity : TrustEntity) (events : list TrustEvent) (dimension_scores : DimensionScores) : M (list TrustInsight) :=
  let identity := _analyze_identity_verification entity dimension_scores in
  behavior <- _analyze_behavioral_patterns events dimension_scores ;;
  let network := _analyze_network_quality entity events in
  risk <- _analyze_risk_factors entity events dimension_scores ;;
  let trends := _analyze_temporal_trends events dimension_scores in
  ret (identity ++ behavior ++ network ++ risk ++ trends)%list.

(** [TrustAnalytics.generate_insights]: the collected insights, sorted by
    confidence, highest first. *)
Definition generate_insights (entity : TrustEntity) (events : list TrustEvent) (dimension_scores : DimensionScores) : M (list TrustInsight) :=
  insights <- collected_insights entity events dimension_scores ;;
  ret (sorted_by (fun y x => Py.Qltb (confidence x) (confidence y)) insights).

(** The margin of error of [calculate_confidence_intervals]. *)
Definition margin (events : list TrustEvent) : Q :=
  let event_count := Py.len events in
  let base_margin := 5.0 in
  let count_adjustment := Py.max 0 ((20 - event_count) * 0.5) in
  base_margin + count_adjustment.

(** [TrustAnalytics.calculate_confidence_intervals]; [scores] is a
    dictionary, given by its items in insertion order. *)
Definition calculate_confidence_intervals (scores : list (string * Q)) (events : list TrustEvent) : list (string * (Q * Q)) :=
  map (fun item =>
         let dimension := fst item in
         let score := snd item in
         let lower_bound := Py.max 0 (score - margin events) in
         let upper_bound := Py.min 100 (score + margin events) in
         (dimension, (lower_bound, upper_bound)))
      scores.

End Analytics.

(** The items of the dictionary [dimension_scores]. *)
Definition items (d : DimensionScores) : list (string * Q) :=
  [("source", source d); ("temporal", temporal d); ("channel", channel_ d);
   ("outcome", outcome_ d); ("network", network d); ("justice", justice d)].

(** * More specification-side notions *)

Definition professional (c : Credential) : bool := is_str (c_type c) "professional".
Definition government_id (c : Credential) : bool := is_str (c_type c) "government_id".

(** What every insight of the five analyses satisfies, and the titles of
    the insights. *)
Definition well_formed (i : Analytics.TrustInsight) : Prop :=
  70 <= Analytics.confidence i <= 92 /\
  (Analytics.impact i = "positive" \/ Analytics.impact i = "negative").


(** The category and title of an insight is one of [kinds]. *)
Definition of_kind (kinds : list (string * string)) (i : Analytics.TrustInsight) : Prop :=
  In (Analytics.category i, Analytics.title i) kinds.

(** * Properties *)

(** ** Numbers and lists *)

Lemma Qltb_spec (a b : Q) : reflect (a < b) (Py.Qltb a b).
Proof.
  unfold Py.Qltb.
  destruct (Qle_bool b a) eqn:E; simpl; constructor.
  - apply Qle_bool_iff in E. now apply Qle_not_lt.
  - apply Qnot_le_lt. intro H. apply Qle_bool_iff in H. congruence.
Qed.

(** Case analysis on every comparison that [Py.min], [Py.max] and the
    conditionals of the goal make. *)
Ltac py_cases :=
  unfold Py.min, Py.max in *;
  repeat match goal with
         | |- context [Py.Qltb ?a ?b] => destruct (Qltb_spec a b)
         | H : context [Py.Qltb ?a ?b] |- _ => destruct (Qltb_spec a b)
         end.

Lemma min_le_l (a b : Q) : Py.min a b <= a.
Proof. py_cases; lra. Qed.

Lemma min_le_r (a b : Q) : Py.min a b <= b.
Proof. py_cases; lra. Qed.

Lemma min_glb (a b c : Q) : c <= a -> c <= b -> c <= Py.min a b.
Proof. intros; py_cases; lra. Qed.

Lemma max_ge_l (a b : Q) : a <= Py.max a b.
Proof. py_cases; lra. Qed.

Lemma max_ge_r (a b : Q) : b <= Py.max a b.
Proof. py_cases; lra. Qed.

Lemma max_lub (a b c : Q) : a <= c -> b <= c -> Py.max a b <= c.
Proof. intros; py_cases; lra. Qed.

(** The clamp [max(0, min(x, 100))] that closes most scorers. *)
Lemma clamp_range (x : Q) : 0 <= Py.max 0 (Py.min x 100) <= 100.
Proof. split; py_cases; lra. Qed.

Lemma len_nonneg {A : Type} (l : list A) : 0 <= Py.len l.
Proof.
  unfold Py.len. change 0 with (inject_Z 0). rewrite <- Zle_Qle. lia.
Qed.

Lemma len_cons {A : Type} (x : A) (l : list A) : Py.len (x :: l) == Py.len l + 1.
Proof.
  unfold Py.len. simpl List.length. rewrite Nat2Z.inj_succ, <- Z.add_1_r.
  rewrite inject_Z_plus. reflexivity.
Qed.

Lemma len_nil {A : Type} : Py.len (@nil A) == 0.
Proof. reflexivity. Qed.

Lemma len_pos {A : Type} (x : A) (l : list A) : 0 < Py.len (x :: l).
Proof. rewrite len_cons. pose proof (len_nonneg l). lra. Qed.

Lemma len_filter_le {A : Type} (p : A -> bool) (l : list A) :
  Py.len (filter p l) <= Py.len l.
Proof.
  unfold Py.len. rewrite <- Zle_Qle. apply inj_le, filter_length_le.
Qed.

Lemma fold_plus_shift (l : list Q) (a : Q) : fold_left Qplus l a == a + Py.sum l.
Proof.
  unfold Py.sum. revert a.
  induction l as [|x l IH]; intros a; simpl.
  - lra.
  - rewrite IH, (IH (0 + x)). lra.
Qed.

Lemma sum_cons (x : Q) (l : list Q) : Py.sum (x :: l) == x + Py.sum l.
Proof. unfold Py.sum at 1. simpl. rewrite fold_plus_shift. lra. Qed.

Lemma sum_nonneg (l : list Q) : Forall (fun x => 0 <= x) l -> 0 <= Py.sum l.
Proof.
  induction 1 as [|x l Hx _ IH].
  - unfold Py.sum; simpl; lra.
  - rewrite sum_cons. lra.
Qed.

Lemma sum_le_len (l : list Q) (b : Q) :
  Forall (fun x => x <= b) l -> Py.sum l <= b * Py.len l.
Proof.
  induction 1 as [|x l Hx _ IH].
  - change (0 <= b * 0). lra.
  - rewrite sum_cons, len_cons. lra.
Qed.

Lemma div_nonneg (a b : Q) : 0 <= a -> 0 <= b -> 0 <= a / b.
Proof.
  intros Ha Hb. unfold Qdiv. apply Qmult_le_0_compat; [assumption|].
  now apply Qinv_le_0_compat.
Qed.

Lemma mean_nonneg (l : list Q) : Forall (fun x => 0 <= x) l -> 0 <= Np.mean l.
Proof.
  intros H. unfold Np.mean. apply div_nonneg; [now apply sum_nonneg | apply len_nonneg].
Qed.

Lemma var_nonneg (l : list Q) : 0 <= Np.var l.
Proof.
  unfold Np.var. apply mean_nonneg. apply Forall_forall.
  intros y Hy. apply in_map_iff in Hy. destruct Hy as [x [<- _]].
  cbv beta. generalize (x - Np.mean l). intros d. nra.
Qed.

Lemma len_gt {A : Type} (k : nat) (l : list A) :
  inject_Z (Z.of_nat k) < Py.len l <-> (k < List.length l)%nat.
Proof. unfold Py.len. rewrite <- Zlt_Qlt. lia. Qed.

Lemma str_in_In (x : string) (l : list string) : Py.str_in x l = true <-> In x l.
Proof.
  unfold Py.str_in. rewrite existsb_exists. split.
  - intros [y [Hy E]]. apply String.eqb_eq in E. now subst.
  - intros H. exists x. split; [assumption | apply String.eqb_refl].
Qed.

(** ** Composite score *)

(** C2. The composite score of every [TrustScore] is the sum of its six
    dimension scores weighted 0.15 (source), 0.10 (temporal), 0.15 (channel),
    0.20 (outcome), 0.15 (network) and 0.25 (justice). *)
Theorem composite_score_weighted_sum (self : TrustScore) :
  composite_score self ==
    source_score self * 0.15 + temporal_score self * 0.10
    + channel_score self * 0.15 + outcome_score self * 0.20
    + network_score self * 0.15 + justice_score self * 0.25.
Proof.
  unfold composite_score, Py.sum. simpl. ring.
Qed.

(** ** Temporal dimension on a single event *)


(** ** Behavioural patterns *)




(** A [TrustEvent] has no attribute [value], so no event passes the filter
    of the high-value pattern. *)
Lemma high_value_events_nil (events : list TrustEvent) : high_value_events events = [].
Proof.
  unfold high_value_events.
  induction events as [|e events IH]; [reflexivity|].
  cbn [filter]. rewrite IH.
  replace (hasattr e "value") with false by reflexivity.
  now rewrite andb_false_r.
Qed.

(** The patterns that [detect_patterns] returns, rule by rule. *)
Lemma detect_patterns_unfold (entity : TrustEntity) (events : list TrustEvent) :
  detect_patterns entity events =
    ((if Py.Qltb 8 (Py.len (community_events events)) then
        [{| pattern_type := "community_engagement";
            description := "Strong pattern of community involvement and collaborative activities";
            frequency := Py.len (community_events events);
            last_occurrence := last_timestamp (community_events events);
            risk_level := "low";
            recommendation := "Excellent for community-focused initiatives" |}]
      else [])
     ++
     (if Py.Qltb 3 (Py.len (professional_events events)) then
        [{| pattern_type := "professional_development";
            description := "Consistent investment in professional growth and skill development";
            frequency := Py.len (professional_events events);
            last_occurrence := last_timestamp (professional_events events);
            risk_level := "low";
            recommendation := "Strong candidate for professional partnerships" |}]
      else []))%list.
Proof.
  unfold detect_patterns. rewrite high_value_events_nil.
  change (Py.Qltb 5 (Py.len (@nil TrustEvent))) with false. cbv iota.
  destruct (Py.Qltb 8 _), (Py.Qltb 3 _); reflexivity.
Qed.

(** C9. Whatever the events, [detect_patterns] returns no pattern of type
    [high_value_activity]. *)
Theorem no_high_value_activity (entity : TrustEntity) (events : list TrustEvent) :
  ~ has_pattern "high_value_activity" (detect_patterns entity events).
Proof.
  intros [p [Hin Ht]]. rewrite detect_patterns_unfold in Hin.
  apply in_app_or in Hin.
  destruct Hin as [Hin|Hin];
    [destruct (Py.Qltb 8 _) | destruct (Py.Qltb 3 _)];
    simpl in Hin; try contradiction;
    destruct Hin as [<-|[]]; discriminate Ht.
Qed.




(** ** The entry point and its failures *)

(** *** Subtraction and comparison of datetimes *)

Lemma datetime_sub_error (a b : pydatetime) (err : Error) :
  datetime_sub a b = inl err ->
  err = TypeError "can't subtract offset-naive and offset-aware datetimes".
Proof.
  unfold datetime_sub. destruct (Bool.eqb (aware a) (aware b)); [discriminate|].
  intros E. now injection E as <-.
Qed.

Lemma datetime_sub_ok (a b : pydatetime) (d : timedelta) :
  datetime_sub a b = inr d -> aware a = aware b.
Proof.
  unfold datetime_sub. destruct (Bool.eqb (aware a) (aware b)) eqn:E; [|discriminate].
  intros _. now apply Bool.eqb_prop.
Qed.

Lemma object_event_gaps_step (a b : pydatetime) (dates : list pydatetime) :
  Objects.event_gaps (a :: b :: dates) =
    match datetime_sub b a with
    | inl err => inl err
    | inr gap =>
        match Objects.event_gaps (b :: dates) with
        | inl err => inl err
        | inr gaps => inr (days gap :: gaps)
        end
    end.
Proof. reflexivity. Qed.

Lemma event_gaps_step (a b : datetime) (dates : list datetime) :
  event_gaps (a :: b :: dates) = days (b - a)%Z :: event_gaps (b :: dates).
Proof. reflexivity. Qed.

Lemma event_gaps_error (dates : list pydatetime) (err : Error) :
  Objects.event_gaps dates = inl err ->
  err = TypeError "can't subtract offset-naive and offset-aware datetimes".
Proof.
  induction dates as [|a dates IH]; [cbn; discriminate|].
  destruct dates as [|b dates]; [cbn; discriminate|].
  rewrite object_event_gaps_step.
  destruct (datetime_sub b a) as [e|gap] eqn:E.
  - intros H. injection H as <-. exact (datetime_sub_error _ _ _ E).
  - destruct (Objects.event_gaps (b :: dates)) as [e|gaps] eqn:G; [|intros H; discriminate H].
    intros H. injection H as <-. now apply IH.
Qed.

(** When the gaps can be taken, the dates are all aware or all naive. *)
Lemma event_gaps_uniform (dates : list pydatetime) (gaps : list Z) (first : pydatetime) :
  Objects.event_gaps (first :: dates) = inr gaps ->
  forall d, In d dates -> aware d = aware first.
Proof.
  revert first gaps. induction dates as [|b dates IH]; intros first gaps H d Hd;
    [contradiction|].
  rewrite object_event_gaps_step in H.
  destruct (datetime_sub b first) as [e|gap] eqn:E; [discriminate|].
  destruct (Objects.event_gaps (b :: dates)) as [e|gaps'] eqn:G; [discriminate|].
  apply datetime_sub_ok in E.
  destruct Hd as [<-|Hd]; [exact E|].
  rewrite (IH b gaps' G d Hd). exact E.
Qed.

(** Among events that are all aware, the latest one is found, and is one
    of them. *)
Lemma max_by_timestamp_aware (best : EventObject) (rest : list EventObject) :
  (forall e, In e (best :: rest) -> timestamp_aware e = true) ->
  exists m, Objects.max_by_timestamp best rest = inr m /\ timestamp_aware m = true.
Proof.
  revert best. induction rest as [|e rest IH]; intros best U.
  - exists best. split; [reflexivity|]. apply U. now left.
  - cbn [Objects.max_by_timestamp]. unfold datetime_gt.
    cbn [aware timestamp_object].
    rewrite (U e (or_intror (or_introl eq_refl))), (U best (or_introl eq_refl)).
    cbn [Bool.eqb].
    destruct (instant _ <? instant _)%Z; apply IH; intros x [<-|Hx]; apply U.
    + right. now left.
    + right. now right.
    + now left.
    + right. now right.
Qed.

(** *** Naive datetimes: the objects are scored as the records are *)

Lemma event_gaps_naive (events : list EventObject) :
  existsb timestamp_aware events = false ->
  Objects.event_gaps (map timestamp_object events) =
    inr (event_gaps (map timestamp (map event_of events))).
Proof.
  induction events as [|a events IH]; [reflexivity|].
  intros H. cbn [existsb] in H. apply orb_false_elim in H. destruct H as [Ha H].
  destruct events as [|b events]; [reflexivity|].
  specialize (IH H).
  cbn [existsb] in H. apply orb_false_elim in H. destruct H as [Hb _].
  cbn [map] in *. rewrite object_event_gaps_step, event_gaps_step.
  unfold datetime_sub at 1. cbn [aware timestamp_object instant].
  rewrite Ha, Hb. cbn [Bool.eqb]. rewrite IH. reflexivity.
Qed.

Lemma max_by_timestamp_naive (best : EventObject) (rest : list EventObject) :
  timestamp_aware best = false ->
  existsb timestamp_aware rest = false ->
  exists m,
    Objects.max_by_timestamp best rest = inr m /\
    event_of m = Py.max_by timestamp (event_of best) (map event_of rest) /\
    timestamp_aware m = false.
Proof.
  revert best. induction rest as [|e rest IH]; intros best Hb H.
  - exists best. repeat split. exact Hb.
  - cbn [existsb] in H. apply orb_false_elim in H. destruct H as [He H].
    cbn [Objects.max_by_timestamp map]. unfold Py.max_by. cbn [fold_left].
    unfold datetime_gt. cbn [aware timestamp_object instant].
    rewrite He, Hb. cbn [Bool.eqb].
    destruct (timestamp (event_of best) <? timestamp (event_of e))%Z.
    + exact (IH e He H).
    + exact (IH best Hb H).
Qed.

Lemma filterM_is_recent_step (e : TrustEvent) (events : list TrustEvent) (c : Clock) :
  filterM is_recent (e :: events) c =
    ((if (c 0%nat - timedelta_of_days 90 <? timestamp e)%Z
      then e :: fst (filterM is_recent events (fun n => c (S n)))
      else fst (filterM is_recent events (fun n => c (S n)))),
     snd (filterM is_recent events (fun n => c (S n)))).
Proof.
  cbn [filterM]. unfold bind at 1. unfold is_recent at 1.
  unfold bind at 1, utcnow, ret at 1. unfold bind at 1.
  destruct (filterM is_recent events (fun n => c (S n))) as [r c'].
  reflexivity.
Qed.

Lemma filterME_is_recent_step (e : EventObject) (events : list EventObject) (c : Clock) :
  timestamp_aware e = false ->
  filterME Objects.is_recent (e :: events) c =
    match filterME Objects.is_recent events (fun n => c (S n)) with
    | (inl err, c') => (inl err, c')
    | (inr r, c') =>
        (inr (if (c 0%nat - timedelta_of_days 90 <? timestamp (event_of e))%Z
              then e :: r else r), c')
    end.
Proof.
  intros He. cbn [filterME]. unfold bind_ok at 1. unfold Objects.is_recent at 1.
  unfold bind_ok at 1. unfold utcnow_object, of_result, datetime_gt.
  cbn [aware timestamp_object instant naive]. rewrite He. cbn [Bool.eqb].
  unfold bind_ok at 1.
  destruct (filterME Objects.is_recent events (fun n => c (S n))) as [[err|r] c'];
    reflexivity.
Qed.

Lemma filterME_is_recent_naive (events : list EventObject) (c : Clock) :
  existsb timestamp_aware events = false ->
  exists recent,
    filterME Objects.is_recent events c =
      (inr recent, snd (filterM is_recent (map event_of events) c)) /\
    map event_of recent = fst (filterM is_recent (map event_of events) c).
Proof.
  revert c. induction events as [|e events IH]; intros c H.
  - exists []. split; reflexivity.
  - cbn [existsb] in H. apply orb_false_elim in H. destruct H as [He H].
    destruct (IH (fun n => c (S n)) H) as [recent [E1 E2]].
    cbn [map]. rewrite (filterME_is_recent_step e events c He), E1.
    rewrite filterM_is_recent_step. cbn [fst snd].
    destruct (c 0%nat - timedelta_of_days 90 <? timestamp (event_of e))%Z.
    + exists (e :: recent). split; [reflexivity|]. cbn [map]. now rewrite E2.
    + exists recent. split; [reflexivity | exact E2].
Qed.

Lemma temporal_naive (entity : EntityObject) (events : list EventObject) (c : Clock) :
  meets_aware_datetime entity events = false ->
  Objects.TemporalDimension_calculate entity events c =
    (inr (fst (TemporalDimension_calculate (entity_of entity) (map event_of events) c)),
     snd (TemporalDimension_calculate (entity_of entity) (map event_of events) c)).
Proof.
  unfold meets_aware_datetime. intros H.
  destruct events as [|e0 rest]; [reflexivity|].
  cbn [Py.truthy andb] in H. apply orb_false_elim in H. destruct H as [Hc H].
  pose proof (event_gaps_naive (e0 :: rest) H) as G.
  cbn [existsb] in H. apply orb_false_elim in H. destruct H as [H0 H].
  destruct (max_by_timestamp_naive e0 rest H0 H) as [m [M1 [M2 M3]]].
  unfold Objects.TemporalDimension_calculate, TemporalDimension_calculate.
  cbn [map] in *.
  unfold bind_ok at 1. unfold utcnow_object at 1.
  unfold bind_ok at 1. unfold of_result at 1. unfold datetime_sub at 1.
  cbn [aware naive created_at_object instant]. rewrite Hc. cbn [Bool.eqb].
  unfold bind_ok at 1. unfold of_result at 1. rewrite G.
  unfold bind_ok at 1. unfold of_result at 1. rewrite M1.
  unfold bind_ok at 1. unfold utcnow_object at 1.
  unfold bind_ok at 1. unfold of_result at 1. unfold datetime_sub at 1.
  cbn [aware naive timestamp_object instant]. rewrite M3. cbn [Bool.eqb].
  unfold ret_ok, bind, utcnow, ret. cbn [fst snd].
  unfold age_score, consistency_score, recency_score. cbn [map].
  rewrite M2. reflexivity.
Qed.

Lemma outcome_naive (entity : EntityObject) (events : list EventObject) (c : Clock) :
  existsb timestamp_aware events = false ->
  Objects.OutcomeDimension_calculate entity events c =
    (inr (fst (OutcomeDimension_calculate (entity_of entity) (map event_of events) c)),
     snd (OutcomeDimension_calculate (entity_of entity) (map event_of events) c)).
Proof.
  intros H.
  unfold Objects.OutcomeDimension_calculate, OutcomeDimension_calculate.
  destruct events as [|e0 rest]; [reflexivity|].
  set (events := e0 :: rest) in *.
  change (negb (Py.truthy events)) with false.
  change (negb (Py.truthy (map event_of events))) with false. cbv iota.
  destruct (filterME_is_recent_naive events c H) as [recent [E1 E2]].
  unfold bind_ok, bind. rewrite E1.
  destruct (filterM is_recent (map event_of events) c) as [r c'].
  cbn [fst snd] in *. unfold ret_ok, ret. cbn [fst snd]. subst r.
  assert (L : forall A B (f : A -> B) (l : list A), Py.len (map f l) = Py.len l).
  { intros. unfold Py.len. now rewrite length_map. }
  assert (T : forall A B (f : A -> B) (l : list A), Py.truthy (map f l) = Py.truthy l).
  { intros A B f l. now destruct l. }
  rewrite !L, T. reflexivity.
Qed.

Lemma recency_naive (events : list EventObject) (c : Clock) :
  existsb timestamp_aware events = false ->
  Objects.recency_confidence events c =
    (inr (fst (recency_confidence (map event_of events) c)),
     snd (recency_confidence (map event_of events) c)).
Proof.
  intros H.
  unfold Objects.recency_confidence, recency_confidence.
  destruct events as [|e0 rest].
  { unfold ret_ok, ret. reflexivity. }
  cbn [existsb] in H. apply orb_false_elim in H. destruct H as [H0 H].
  destruct (max_by_timestamp_naive e0 rest H0 H) as [m [M1 [M2 M3]]].
  cbn [map].
  unfold bind_ok at 1. unfold of_result at 1. rewrite M1.
  unfold bind_ok at 1. unfold utcnow_object at 1.
  unfold bind_ok at 1. unfold of_result at 1. unfold datetime_sub at 1.
  cbn [aware naive timestamp_object instant]. rewrite M3. cbn [Bool.eqb].
  unfold ret_ok, bind, utcnow, ret. cbn [fst snd].
  rewrite M2. reflexivity.
Qed.

Lemma confidence_naive (events : list EventObject) (scores : DimensionScores) (c : Clock) :
  existsb timestamp_aware events = false ->
  Objects._calculate_confidence events scores c =
    (inr (fst (_calculate_confidence (map event_of events) scores c)),
     snd (_calculate_confidence (map event_of events) scores c)).
Proof.
  intros H.
  unfold Objects._calculate_confidence, _calculate_confidence. cbv zeta.
  unfold bind_ok at 1. rewrite (recency_naive events c H).
  unfold bind at 1. unfold bind at 1.
  destruct (recency_confidence (map event_of events) c) as [r c'].
  cbn [fst snd]. unfold ret_ok, ret. cbn [fst snd]. reflexivity.
Qed.

Lemma engine_naive (entity : EntityObject) (events : list EventObject) (c : Clock) :
  meets_aware_datetime entity events = false ->
  fst (Objects.TrustEngine_calculate_trust entity events c) =
    inr (fst (TrustEngine_calculate_trust (entity_of entity) (map event_of events) c)).
Proof.
  intros H.
  assert (Hn : existsb timestamp_aware events = false).
  { unfold meets_aware_datetime in H. destruct events as [|e0 rest]; [reflexivity|].
    cbn [Py.truthy andb] in H. now apply orb_false_elim in H. }
  unfold Objects.TrustEngine_calculate_trust, TrustEngine_calculate_trust.
  unfold bind_ok at 1. rewrite (temporal_naive entity events c H).
  unfold bind at 1.
  destruct (TemporalDimension_calculate (entity_of entity) (map event_of events) c)
    as [t c1].
  cbn [fst snd].
  unfold bind_ok at 1. rewrite (outcome_naive entity events c1 Hn).
  unfold bind at 1.
  destruct (OutcomeDimension_calculate (entity_of entity) (map event_of events) c1)
    as [o c2].
  cbn [fst snd]. cbv zeta.
  unfold bind_ok at 1.
  match goal with |- context [Objects._calculate_confidence events ?s c2] =>
    rewrite (confidence_naive events s c2 Hn) end.
  unfold bind at 1.
  match goal with |- context [_calculate_confidence (map event_of events) ?s c2] =>
    destruct (_calculate_confidence (map event_of events) s c2) as [k c3] end.
  cbn [fst snd].
  unfold bind_ok, utcnow_object, ret_ok, bind, utcnow, ret. cbn [fst naive instant].
  reflexivity.
Qed.

(** *** An aware datetime: the temporal scorer raises *)

Lemma temporal_aware (entity : EntityObject) (events : list EventObject) (c : Clock) :
  meets_aware_datetime entity events = true ->
  fst (Objects.TemporalDimension_calculate entity events c) =
    inl (TypeError "can't subtract offset-naive and offset-aware datetimes").
Proof.
  unfold meets_aware_datetime. intros H.
  destruct events as [|e0 rest]; [discriminate H|].
  cbn [Py.truthy andb] in H.
  unfold Objects.TemporalDimension_calculate.
  unfold bind_ok at 1. unfold utcnow_object at 1.
  unfold bind_ok at 1. unfold of_result at 1. unfold datetime_sub at 1.
  cbn [aware naive created_at_object instant].
  destruct (created_at_aware entity) eqn:Hc; cbn [Bool.eqb]; [reflexivity|].
  cbn [orb] in H.
  unfold bind_ok at 1. unfold of_result at 1.
  destruct (Objects.event_gaps (map timestamp_object (e0 :: rest))) as [err|gaps] eqn:G.
  { rewrite (event_gaps_error _ _ G). reflexivity. }
  assert (U : forall e, In e (e0 :: rest) -> timestamp_aware e = true).
  { cbn [map] in G.
    pose proof (event_gaps_uniform _ _ _ G) as U.
    apply existsb_exists in H. destruct H as [x [Hx Ax]].
    assert (A0 : timestamp_aware e0 = true).
    { destruct Hx as [<-|Hx]; [exact Ax|].
      specialize (U (timestamp_object x) (in_map timestamp_object _ _ Hx)).
      cbn [aware timestamp_object] in U. congruence. }
    intros e [<-|He]; [exact A0|].
    specialize (U (timestamp_object e) (in_map timestamp_object _ _ He)).
    cbn [aware timestamp_object] in U. congruence. }
  destruct (max_by_timestamp_aware e0 rest U) as [m [M1 M2]].
  unfold bind_ok at 1. unfold of_result at 1. rewrite M1.
  unfold bind_ok at 1. unfold utcnow_object at 1.
  unfold bind_ok at 1. unfold of_result at 1. unfold datetime_sub at 1.
  cbn [aware naive timestamp_object instant]. rewrite M2. cbn [Bool.eqb].
  reflexivity.
Qed.

Lemma engine_aware (entity : EntityObject) (events : list EventObject) (c : Clock) :
  meets_aware_datetime entity events = true ->
  fst (Objects.TrustEngine_calculate_trust entity events c) =
    inl (TypeError "can't subtract offset-naive and offset-aware datetimes").
Proof.
  intros H. pose proof (temporal_aware entity events c H) as E.
  unfold Objects.TrustEngine_calculate_trust. unfold bind_ok at 1.
  destruct (Objects.TemporalDimension_calculate entity events c) as [[err|t] c1];
    cbn [fst] in E; [|discriminate E].
  injection E as ->. reflexivity.
Qed.

(** *** The ids are not read *)

Section Relabelled.

Variable s : string.
Variable new_id : string.

Lemma filter_relabelled (p : TrustEvent -> bool) (l : list TrustEvent) :
  filter p (map (for_entity s) l) =
    map (for_entity s) (filter (fun e => p (for_entity s e)) l).
Proof.
  induction l as [|e l IH]; [reflexivity|].
  cbn [map filter]. rewrite IH. now destruct (p (for_entity s e)).
Qed.

Lemma len_map (A B : Type) (f : A -> B) (l : list A) : Py.len (map f l) = Py.len l.
Proof. unfold Py.len. now rewrite length_map. Qed.

Lemma truthy_map (A B : Type) (f : A -> B) (l : list A) :
  Py.truthy (map f l) = Py.truthy l.
Proof. now destruct l. Qed.

Lemma flat_map_relabelled (A : Type) (f : TrustEvent -> list A) (l : list TrustEvent) :
  flat_map f (map (for_entity s) l) = flat_map (fun e => f (for_entity s e)) l.
Proof.
  induction l as [|e l IH]; [reflexivity|]. cbn [map flat_map]. now rewrite IH.
Qed.

Lemma max_by_relabelled (e0 : TrustEvent) (rest : list TrustEvent) :
  Py.max_by timestamp (for_entity s e0) (map (for_entity s) rest) =
    for_entity s (Py.max_by timestamp e0 rest).
Proof.
  unfold Py.max_by. revert e0.
  induction rest as [|e rest IH]; intros e0; [reflexivity|].
  cbn [map fold_left]. cbn [for_entity timestamp].
  destruct (timestamp e0 <? timestamp e)%Z; apply IH.
Qed.

Lemma filterM_is_recent_relabelled (l : list TrustEvent) (c : Clock) :
  filterM is_recent (map (for_entity s) l) c =
    (map (for_entity s) (fst (filterM is_recent l c)), snd (filterM is_recent l c)).
Proof.
  revert c. induction l as [|e l IH]; intros c; [reflexivity|].
  cbn [map]. rewrite !filterM_is_recent_step, IH. cbn [fst snd for_entity timestamp].
  now destruct (c 0%nat - timedelta_of_days 90 <? timestamp e)%Z.
Qed.

Ltac relabelled :=
  repeat first
    [ rewrite filter_relabelled
    | rewrite len_map
    | rewrite truthy_map
    | rewrite map_map
    | rewrite flat_map_relabelled
    | rewrite max_by_relabelled ].

Lemma temporal_relabelled (entity : TrustEntity) (events : list TrustEvent) (c : Clock) :
  TemporalDimension_calculate (rename new_id entity) (map (for_entity s) events) c =
    TemporalDimension_calculate entity events c.
Proof.
  destruct events as [|e0 rest]; [reflexivity|].
  unfold TemporalDimension_calculate. cbn [map].
  unfold bind, utcnow, ret. cbv zeta.
  rewrite max_by_relabelled.
  unfold age_score, consistency_score, recency_score, longevity_score.
  change (for_entity s e0 :: map (for_entity s) rest)
    with (map (for_entity s) (e0 :: rest)).
  relabelled. reflexivity.
Qed.

Lemma channel_relabelled (entity : TrustEntity) (events : list TrustEvent) :
  ChannelDimension_calculate (rename new_id entity) (map (for_entity s) events) =
    ChannelDimension_calculate entity events.
Proof.
  unfold ChannelDimension_calculate, verified_channels. relabelled.
  rewrite !length_map. reflexivity.
Qed.

Lemma outcome_relabelled (entity : TrustEntity) (events : list TrustEvent) (c : Clock) :
  OutcomeDimension_calculate (rename new_id entity) (map (for_entity s) events) c =
    OutcomeDimension_calculate entity events c.
Proof.
  unfold OutcomeDimension_calculate. rewrite truthy_map.
  destruct (negb (Py.truthy events)); [reflexivity|].
  cbv zeta. unfold bind. rewrite filterM_is_recent_relabelled.
  destruct (filterM is_recent events c) as [recent c']. cbn [fst snd].
  relabelled. reflexivity.
Qed.

Lemma network_relabelled (entity : TrustEntity) (events : list TrustEvent) :
  NetworkDimension_calculate (rename new_id entity) (map (for_entity s) events) =
    NetworkDimension_calculate entity events.
Proof. unfold NetworkDimension_calculate. relabelled. reflexivity. Qed.

Lemma justice_relabelled (entity : TrustEntity) (events : list TrustEvent) :
  JusticeDimension_calculate (rename new_id entity) (map (for_entity s) events) =
    JusticeDimension_calculate entity events.
Proof. unfold JusticeDimension_calculate. relabelled. reflexivity. Qed.

Lemma people_relabelled (d : DimensionScores) (entity : TrustEntity) (events : list TrustEvent) :
  PeopleScore_calculate d (rename new_id entity) (map (for_entity s) events) =
    PeopleScore_calculate d entity events.
Proof. unfold PeopleScore_calculate. relabelled. reflexivity. Qed.

Lemma legal_relabelled (d : DimensionScores) (entity : TrustEntity) (events : list TrustEvent) :
  LegalScore_calculate d (rename new_id entity) (map (for_entity s) events) =
    LegalScore_calculate d entity events.
Proof. unfold LegalScore_calculate. relabelled. reflexivity. Qed.

Lemma state_relabelled (d : DimensionScores) (entity : TrustEntity) (events : list TrustEvent) :
  StateScore_calculate d (rename new_id entity) (map (for_entity s) events) =
    StateScore_calculate d entity events.
Proof. unfold StateScore_calculate. relabelled. reflexivity. Qed.

Lemma chitty_relabelled (d : DimensionScores) (entity : TrustEntity) (events : list TrustEvent) :
  ChittyScore.calculate d (rename new_id entity) (map (for_entity s) events) =
    ChittyScore.calculate d entity events.
Proof.
  unfold ChittyScore.calculate, ChittyScore.justice_bonus, ChittyScore.impact_bonus,
    ChittyScore.transformation_bonus, ChittyScore.violation_penalty,
    ChittyScore.justice_violations, ChittyScore.violation_events.
  relabelled. reflexivity.
Qed.

Lemma confidence_relabelled (d : DimensionScores) (events : list TrustEvent) (c : Clock) :
  _calculate_confidence (map (for_entity s) events) d c = _calculate_confidence events d c.
Proof.
  unfold _calculate_confidence, recency_confidence, event_confidence.
  destruct events as [|e0 rest]; [reflexivity|].
  cbn [map]. unfold bind, utcnow, ret. rewrite max_by_relabelled.
  change (for_entity s e0 :: map (for_entity s) rest)
    with (map (for_entity s) (e0 :: rest)).
  relabelled. reflexivity.
Qed.

Lemma engine_relabelled (entity : TrustEntity) (events : list TrustEvent) (c : Clock) :
  TrustEngine_calculate_trust (rename new_id entity) (map (for_entity s) events) c =
    TrustEngine_calculate_trust entity events c.
Proof.
  unfold TrustEngine_calculate_trust. cbv zeta.
  unfold bind at 1. rewrite temporal_relabelled.
  unfold bind at 4.
  destruct (TemporalDimension_calculate entity events c) as [t c1].
  unfold bind at 1. rewrite outcome_relabelled.
  unfold bind at 3.
  destruct (OutcomeDimension_calculate entity events c1) as [o c2].
  rewrite channel_relabelled, network_relabelled, justice_relabelled.
  change (SourceDimension_calculate (rename new_id entity) (map (for_entity s) events))
    with (SourceDimension_calculate entity events).
  rewrite people_relabelled, legal_relabelled, state_relabelled, chitty_relabelled.
  unfold bind at 1. rewrite confidence_relabelled.
  unfold bind at 2.
  match goal with |- context [_calculate_confidence events ?d c2] =>
    destruct (_calculate_confidence events d c2) as [k c3] end.
  reflexivity.
Qed.

End Relabelled.

Lemma relabel_erased (entity_ids : list string) (events : list EventObject) :
  map (for_entity "") (map event_of (relabel entity_ids events)) =
    map (for_entity "") (map event_of events).
Proof.
  revert events. induction entity_ids as [|s ids IH]; intros [|e events];
    try reflexivity.
  cbn [relabel map]. rewrite IH. reflexivity.
Qed.

Lemma relabel_aware (entity_ids : list string) (events : list EventObject) :
  existsb timestamp_aware (relabel entity_ids events) = existsb timestamp_aware events.
Proof.
  revert events. induction entity_ids as [|s ids IH]; intros [|e events];
    try reflexivity.
  cbn [relabel existsb]. rewrite IH. reflexivity.
Qed.

Lemma relabel_truthy (entity_ids : list string) (events : list EventObject) :
  Py.truthy (relabel entity_ids events) = Py.truthy events.
Proof. destruct entity_ids, events; reflexivity. Qed.

Lemma engine_ignores_ids (entity : EntityObject) (new_id : string) (entity_ids : list string) (events : list EventObject) (c : Clock) :
  TrustEngine_calculate_trust (entity_of (with_id new_id entity))
      (map event_of (relabel entity_ids events)) c =
    TrustEngine_calculate_trust (entity_of entity) (map event_of events) c.
Proof.
  rewrite <- (engine_relabelled "" "" (entity_of (with_id new_id entity))
                (map event_of (relabel entity_ids events)) c).
  rewrite <- (engine_relabelled "" "" (entity_of entity) (map event_of events) c).
  rewrite relabel_erased. reflexivity.
Qed.

Lemma calculate_trust_cases (entity : EntityObject) (events : list EventObject) (c : Clock) :
  fst (calculate_trust (Some entity) events c) =
    if meets_aware_datetime entity events
    then inl (TypeError "can't subtract offset-naive and offset-aware datetimes")
    else inr (fst (TrustEngine_calculate_trust (entity_of entity) (map event_of events) c)).
Proof.
  unfold calculate_trust.
  destruct (meets_aware_datetime entity events) eqn:H.
  - now apply engine_aware.
  - now apply engine_naive.
Qed.

(** C3, as stated, fails on both counts: a list with an event of another
    entity is scored like any other, and a null entity makes the call fail
    with an attribute error, not with a validation error. *)
Lemma calculate_trust_does_not_validate :
  let c := Samples.clock_at 20 in
  let alice := naive_entity Samples.alice in
  let events := [naive_event Samples.foreign_event] in
  (foreign_events alice events /\
   exists score, fst (calculate_trust (Some alice) events c) = inr score)
  /\
  (forall message,
     fst (calculate_trust None events c) <> inl (ValidationError message)).
Proof.
  split; [split|].
  - exists (naive_event Samples.foreign_event). split; [now left | discriminate].
  - eexists. reflexivity.
  - intros message. discriminate.
Qed.

(** An event with an aware timestamp, recorded for an entity whose
    [created_at] is naive: the gaps and the latest event are found, and the
    call fails where the temporal scorer subtracts the timestamp from
    [datetime.utcnow()]. *)
Example aware_timestamp_raises :
  fst (calculate_trust (Some (naive_entity Samples.alice))
         [{| event_of := Samples.foreign_event; timestamp_aware := true |}]
         (Samples.clock_at 20)) =
    inl (TypeError "can't subtract offset-naive and offset-aware datetimes").
Proof. reflexivity. Qed.

(** C3, as amended.  The call validates nothing: it raises no validation
    error, and its result is the same whatever [id] the entity has and
    whatever [entity_id]s the events carry.  With a null entity it fails with
    the attribute error of the first scorer.  With an entity and events of
    which [created_at] or some [timestamp] is an aware datetime it fails with
    the type error of the first subtraction that mixes an aware and a naive
    datetime; in every other case it returns the [TrustScore] that the engine
    computes from the records. *)
Theorem calculate_trust_result (events : list EventObject) (c : Clock) :
  fst (calculate_trust None events c) =
    inl (AttributeError "'NoneType' object has no attribute 'identity_verified'")
  /\
  (forall entity : EntityObject,
     fst (calculate_trust (Some entity) events c) =
       if meets_aware_datetime entity events
       then inl (TypeError "can't subtract offset-naive and offset-aware datetimes")
       else inr (fst (TrustEngine_calculate_trust (entity_of entity)
                        (map event_of events) c)))
  /\
  (forall (entity : EntityObject) (new_id : string) (entity_ids : list string),
     fst (calculate_trust (Some (with_id new_id entity)) (relabel entity_ids events) c) =
       fst (calculate_trust (Some entity) events c))
  /\
  (forall (entity : option EntityObject) (message : string),
     fst (calculate_trust entity events c) <> inl (ValidationError message)).
Proof.
  split; [reflexivity|]. split; [|split].
  - intros entity. apply calculate_trust_cases.
  - intros entity new_id entity_ids.
    rewrite !calculate_trust_cases, engine_ignores_ids.
    unfold meets_aware_datetime. rewrite relabel_truthy, relabel_aware.
    reflexivity.
  - intros [entity|] message.
    + rewrite calculate_trust_cases.
      destruct (meets_aware_datetime entity events); discriminate.
    + discriminate.
Qed.

(** ** Chitty score: the penalty for violations *)

Lemma str_in_has_tag (tag : string) (e : TrustEvent) :
  Py.str_in tag (tags e) = has_tag tag e.
Proof.
  unfold has_tag. destruct (in_dec string_dec tag (tags e)) as [H|H].
  - now apply str_in_In.
  - apply not_true_is_false. intros E. now apply str_in_In in E.
Qed.

Lemma tagged_has_tag (tag : string) (e : TrustEvent) : tagged tag e = has_tag tag e.
Proof.
  unfold tagged. rewrite str_in_has_tag. unfold has_tag.
  destruct (tags e); [|reflexivity].
  simpl. now destruct (in_dec string_dec tag []).
Qed.

Lemma any_in_for_a_cause (e : TrustEvent) :
  Py.any_in ["civil_disobedience"; "whistleblower"] (tags e) = for_a_cause e.
Proof.
  unfold Py.any_in, for_a_cause. cbn [existsb].
  rewrite !str_in_has_tag. now rewrite orb_false_r.
Qed.

Lemma filter_filter {A : Type} (p q : A -> bool) (l : list A) :
  filter q (filter p l) = filter (fun x => p x && q x) l.
Proof.
  induction l as [|x l IH]; [reflexivity|].
  cbn [filter]. destruct (p x); cbn [filter andb]; rewrite IH; reflexivity.
Qed.

Lemma len_filter_split {A : Type} (p q : A -> bool) (l : list A) :
  Py.len (filter p l) ==
  Py.len (filter (fun x => p x && negb (q x)) l)
  + Py.len (filter (fun x => p x && q x) l).
Proof.
  induction l as [|x l IH]; [reflexivity|].
  cbn [filter]. destruct (p x), (q x); cbn [andb negb];
    rewrite ?len_cons, IH; ring.
Qed.

(** C5. The violation penalty of the Chitty score is 5 for every event
    tagged [violation] and neither [civil_disobedience] nor [whistleblower],
    plus 1 for every event tagged [violation] and one of those two; it is
    subtracted before the clamp to [0,100]. *)
Theorem chitty_violation_penalty (dimension_scores : DimensionScores) (entity : TrustEntity) (events : list TrustEvent) :
  ChittyScore.violation_penalty events ==
    5 * Py.len (filter plain_violation events)
    + 1 * Py.len (filter violation_for_a_cause events)
  /\
  ChittyScore.calculate dimension_scores entity events =
    Py.max 0
      (Py.min
         (ChittyScore.base_score dimension_scores
          + ChittyScore.justice_bonus events
          + ChittyScore.impact_bonus events
          + ChittyScore.transformation_bonus events
          - ChittyScore.violation_penalty events)
         100).
Proof.
  split; [|reflexivity].
  unfold ChittyScore.violation_penalty, ChittyScore.justice_violations,
    ChittyScore.violation_events.
  rewrite filter_filter.
  rewrite (len_filter_split (tagged "violation")
             (fun e => Py.any_in ["civil_disobedience"; "whistleblower"] (tags e))).
  rewrite (filter_ext _ plain_violation),
          (filter_ext (fun e => tagged "violation" e && Py.any_in _ (tags e))
                      violation_for_a_cause).
  - ring.
  - intros e. now rewrite tagged_has_tag, any_in_for_a_cause.
  - intros e. now rewrite tagged_has_tag, any_in_for_a_cause.
Qed.

(** ** No events *)

Lemma consistency_confidence_le (scores : DimensionScores) :
  consistency_confidence scores <= 0.3.
Proof.
  unfold consistency_confidence.
  pose proof (var_nonneg (values scores)) as H.
  assert (0 <= Np.var (values scores) / 5000) by (apply div_nonneg; lra).
  lra.
Qed.

Lemma confidence_no_events (scores : DimensionScores) (c : Clock) :
  fst (_calculate_confidence [] scores c) =
    Py.min (Py.max (event_confidence [] + consistency_confidence scores + 0) 0.1) 1.0.
Proof. reflexivity. Qed.

Lemma confidence_no_events_lt (scores : DimensionScores) (c : Clock) :
  fst (_calculate_confidence [] scores c) < 0.5.
Proof.
  rewrite confidence_no_events.
  pose proof (consistency_confidence_le scores) as H.
  assert (E : event_confidence [] == 0) by reflexivity.
  revert H. generalize (consistency_confidence scores). intros x Hx.
  set (ec := event_confidence []) in *.
  clearbody ec.
  py_cases; lra.
Qed.

(** The confidence of a result is the one [_calculate_confidence] computes
    from the events and the six dimension scores. *)
Lemma engine_confidence (entity : TrustEntity) (events : list TrustEvent) (c : Clock) :
  exists scores c',
    confidence (fst (TrustEngine_calculate_trust entity events c)) =
    fst (_calculate_confidence events scores c').
Proof.
  unfold TrustEngine_calculate_trust, bind.
  destruct (TemporalDimension_calculate entity events c) as [t c1].
  destruct (OutcomeDimension_calculate entity events c1) as [o c2].
  match goal with |- context [_calculate_confidence events ?s c2] =>
    exists s, c2; destruct (_calculate_confidence events s c2) as [k c3] end.
  reflexivity.
Qed.

(** C4. With an empty event list the temporal score is 0 and the
    confidence is below 0.5. *)
Theorem empty_events_score (entity : TrustEntity) (c : Clock) :
  let score := fst (TrustEngine_calculate_trust entity [] c) in
  temporal_score score = 0 /\ confidence score < 0.5.
Proof.
  split; [reflexivity|].
  destruct (engine_confidence entity [] c) as [scores [c' E]].
  rewrite E. apply confidence_no_events_lt.
Qed.

(** ** Outcome dimension *)


Lemma filterM_is_recent (events : list TrustEvent) (c : Clock) :
  fst (filterM is_recent events c) = OutcomeSpec.last_90_days c events.
Proof.
  revert c. induction events as [|e events IH]; intros c; [reflexivity|].
  cbn [filterM OutcomeSpec.last_90_days].
  unfold bind at 1. unfold is_recent at 1. unfold bind at 1, utcnow, ret at 1.
  unfold bind at 1.
  specialize (IH (fun n => c (S n))).
  destruct (filterM is_recent events (fun n => c (S n))) as [r c'].
  cbn [fst] in IH. subst r. unfold ret. cbn [fst].
  reflexivity.
Qed.







(** ** Two assessments of the same inputs *)

Lemma filterM_is_recent_clock (events : list TrustEvent) (c : Clock) :
  snd (filterM is_recent events c) = shift (List.length events) c.
Proof.
  revert c. induction events as [|e events IH]; intros c; [reflexivity|].
  cbn [filterM]. unfold bind at 1. unfold is_recent at 1.
  unfold bind at 1, utcnow, ret at 1. unfold bind at 1.
  specialize (IH (fun n => c (S n))).
  destruct (filterM is_recent events (fun n => c (S n))) as [r c'].
  cbn [snd] in IH. subst c'. reflexivity.
Qed.

Lemma temporal_clock (entity : TrustEntity) (events : list TrustEvent) (c : Clock) :
  snd (TemporalDimension_calculate entity events c) = shift (temporal_readings events) c.
Proof. destruct events; reflexivity. Qed.

Lemma outcome_clock (entity : TrustEntity) (events : list TrustEvent) (c : Clock) :
  snd (OutcomeDimension_calculate entity events c) = shift (outcome_readings events) c.
Proof.
  unfold OutcomeDimension_calculate, outcome_readings.
  destruct events as [|e0 rest]; [reflexivity|].
  change (negb (Py.truthy (e0 :: rest))) with false. cbv iota.
  unfold bind. pose proof (filterM_is_recent_clock (e0 :: rest) c) as R.
  destruct (filterM is_recent (e0 :: rest) c) as [recent c']. exact R.
Qed.

Lemma last_90_days_same_side (events : list TrustEvent) (c1 c2 : Clock) :
  (forall k e, nth_error events k = Some e ->
     (c1 k - timedelta_of_days 90 <? timestamp e)%Z =
     (c2 k - timedelta_of_days 90 <? timestamp e)%Z) ->
  OutcomeSpec.last_90_days c1 events = OutcomeSpec.last_90_days c2 events.
Proof.
  revert c1 c2. induction events as [|e events IH]; intros c1 c2 H; [reflexivity|].
  cbn [OutcomeSpec.last_90_days].
  pose proof (H 0%nat e eq_refl) as H0. unfold timedelta_of_days in H0.
  rewrite H0.
  rewrite (IH (fun n => c1 (S n)) (fun n => c2 (S n))); [reflexivity|].
  intros k e' Hk. exact (H (S k) e' Hk).
Qed.

Lemma outcome_same_side (entity : TrustEntity) (events : list TrustEvent) (c1 c2 : Clock) :
  (forall k e, nth_error events k = Some e ->
     (c1 k - timedelta_of_days 90 <? timestamp e)%Z =
     (c2 k - timedelta_of_days 90 <? timestamp e)%Z) ->
  fst (OutcomeDimension_calculate entity events c1) =
  fst (OutcomeDimension_calculate entity events c2).
Proof.
  intros H. unfold OutcomeDimension_calculate.
  destruct (negb (Py.truthy events)); [reflexivity|].
  unfold bind.
  pose proof (filterM_is_recent events c1) as R1.
  pose proof (filterM_is_recent events c2) as R2.
  rewrite (last_90_days_same_side events c1 c2 H) in R1.
  destruct (filterM is_recent events c1) as [r1 c1'].
  destruct (filterM is_recent events c2) as [r2 c2'].
  cbn [fst] in R1, R2. rewrite R1, R2. unfold ret. cbn [fst]. reflexivity.
Qed.

(** C7, as amended.  Two assessments of the same entity and events give the
    same six dimension scores, four output scores and confidence whenever
    their clocks are the same to the day: the same whole days since
    [created_at] at the first reading, the same whole days since the latest
    event at the second reading and at the reading of the confidence, and
    every event on the same side of the 90-day window at the reading taken
    for it.  The readings themselves may differ. *)
Theorem same_days_same_assessment
    (entity : TrustEntity) (events : list TrustEvent) (c1 c2 : Clock)
    (H : same_to_the_day entity events c1 c2) :
  same_assessment (fst (TrustEngine_calculate_trust entity events c1))
                  (fst (TrustEngine_calculate_trust entity events c2)).
Proof.
  assert (Ht : fst (TemporalDimension_calculate entity events c1) =
               fst (TemporalDimension_calculate entity events c2)).
  { unfold TemporalDimension_calculate.
    destruct events as [|e0 rest]; [reflexivity|].
    destruct H as [H0 [H1 _]].
    unfold bind, utcnow, ret. cbn [fst].
    unfold age_score, recency_score. rewrite H0, H1. reflexivity. }
  pose proof (temporal_clock entity events c1) as Hc1.
  pose proof (temporal_clock entity events c2) as Hc2.
  set (t := temporal_readings events) in *.
  assert (Ho : fst (OutcomeDimension_calculate entity events (shift t c1)) =
               fst (OutcomeDimension_calculate entity events (shift t c2))).
  { apply outcome_same_side. intros k e Hk. unfold shift.
    destruct events as [|e0 rest]; [destruct k; discriminate Hk|].
    destruct H as [_ [_ [H2 _]]]. exact (H2 k e Hk). }
  pose proof (outcome_clock entity events (shift t c1)) as Hd1.
  pose proof (outcome_clock entity events (shift t c2)) as Hd2.
  set (o := outcome_readings events) in *.
  assert (Hk : forall scores,
             fst (_calculate_confidence events scores (shift o (shift t c1))) =
             fst (_calculate_confidence events scores (shift o (shift t c2)))).
  { intros scores. unfold _calculate_confidence, recency_confidence.
    subst t o. unfold outcome_readings, temporal_readings.
    destruct events as [|e0 rest]; unfold bind, utcnow, ret, shift; cbn [fst];
      [reflexivity|].
    destruct H as [_ [_ [_ H3]]].
    replace (List.length (e0 :: rest) + (2 + 0))%nat
      with (2 + List.length (e0 :: rest))%nat by lia.
    replace (2 + (List.length (e0 :: rest) + 0))%nat
      with (2 + List.length (e0 :: rest))%nat by lia.
    rewrite H3. reflexivity. }
  clearbody t o.
  unfold TrustEngine_calculate_trust, bind.
  destruct (TemporalDimension_calculate entity events c1) as [t1 d1].
  destruct (TemporalDimension_calculate entity events c2) as [t2 d2].
  cbn [fst snd] in Ht, Hc1, Hc2. subst t2 d1 d2.
  destruct (OutcomeDimension_calculate entity events (shift t c1)) as [o1 d1].
  destruct (OutcomeDimension_calculate entity events (shift t c2)) as [o2 d2].
  cbn [fst snd] in Ho, Hd1, Hd2. subst o2 d1 d2.
  match goal with |- context [_calculate_confidence events ?s _] =>
    specialize (Hk s) end.
  destruct (_calculate_confidence events _ (shift o (shift t c1))) as [k1 d1].
  destruct (_calculate_confidence events _ (shift o (shift t c2))) as [k2 d2].
  cbn [fst] in Hk. subst k2.
  unfold utcnow, ret. cbn [fst].
  unfold same_assessment; cbn [source_score temporal_score channel_score outcome_score
    network_score justice_score people_score legal_score state_score chitty_score confidence].
  repeat split; apply Qeq_refl.
Qed.

(** A second call one millisecond after the first: no reading is the same,
    and the two clocks are the same to the day. *)
Lemma same_days_same_assessment_witness :
  let events := [Samples.event TRANSACTION 10 POSITIVE []] in
  let c1 := Samples.clock_at 20 in
  let c2 : Clock := fun n => (Samples.day 20 + 1000)%Z in
  (forall n, c1 n <> c2 n) /\
  same_to_the_day Samples.alice events c1 c2 /\
  same_assessment
    (fst (TrustEngine_calculate_trust Samples.alice events c1))
    (fst (TrustEngine_calculate_trust Samples.alice events c2)).
Proof.
  intros events c1 c2.
  assert (H : same_to_the_day Samples.alice events c1 c2).
  { cbn. repeat split.
    intros k e Hk. destruct k as [|k]; [|destruct k; discriminate Hk].
    injection Hk as <-. reflexivity. }
  split; [intros n; discriminate|].
  split; [exact H|].
  exact (same_days_same_assessment Samples.alice events c1 c2 H).
Defined.

(** C7, as stated, fails: the scorers read the clock, and the same entity
    and event assessed at day 20 and again at day 400 get different temporal
    scores. *)
Lemma later_call_differs :
  let events := [Samples.event TRANSACTION 10 POSITIVE []] in
  ~ same_assessment
      (fst (TrustEngine_calculate_trust Samples.alice events (Samples.clock_at 20)))
      (fst (TrustEngine_calculate_trust Samples.alice events (Samples.clock_at 400))).
Proof.
  intros events [_ [H _]]. vm_compute in H. discriminate H.
Qed.

(** ** The range of the scores *)

Lemma min_nonneg (a b : Q) : 0 <= a -> 0 <= b -> 0 <= Py.min a b.
Proof. intros; py_cases; lra. Qed.

Lemma capped_range (x cap : Q) : 0 <= x -> 0 <= cap -> 0 <= Py.min x cap <= cap.
Proof. intros; split; py_cases; lra. Qed.

Lemma source_range (entity : TrustEntity) (events : list TrustEvent) :
  0 <= SourceDimension_calculate entity events <= 100.
Proof.
  unfold SourceDimension_calculate. cbv zeta.
  pose proof (capped_range (Py.len (credentials entity) * 10) 30) as H1.
  pose proof (capped_range
                (Py.len (filter (fun c => is_str (c_type c) "professional")
                                (credentials entity)) * 5) 20) as H2.
  pose proof (len_nonneg (credentials entity)) as L1.
  pose proof (len_nonneg (filter (fun c => is_str (c_type c) "professional")
                                 (credentials entity))) as L2.
  destruct H1 as [H1 H1']; [lra | lra |].
  destruct H2 as [H2 H2']; [lra | lra |].
  set (a := Py.min (Py.len (credentials entity) * 10) 30) in *.
  set (b := Py.min (Py.len (filter _ (credentials entity)) * 5) 20) in *.
  clearbody a b.
  destruct (identity_verified entity), (existsb _ (credentials entity));
    split; py_cases; lra.
Qed.

Lemma justice_range (entity : TrustEntity) (events : list TrustEvent) :
  0 <= JusticeDimension_calculate entity events <= 100.
Proof.
  unfold JusticeDimension_calculate. cbv zeta.
  repeat match goal with
         | |- context [Py.min (Py.len ?l * ?k) ?cap] =>
             let L := fresh "L" in
             let H := fresh "B" in
             let x := fresh "x" in
             pose proof (len_nonneg l) as L;
             assert (H : 0 <= Py.min (Py.len l * k) cap <= cap)
               by (apply capped_range; lra);
             set (x := Py.min (Py.len l * k) cap) in *; clearbody x
         end.
  destruct (negb (Qeq_bool (transparency_level entity) 0)
            && Py.Qltb 0.7 (transparency_level entity));
    split; py_cases; lra.
Qed.

Lemma mean_range (l : list Q) (hi : Q) :
  Forall (fun x => 0 <= x <= hi) l -> l <> [] -> 0 <= Np.mean l <= hi.
Proof.
  intros H Hne. split.
  - apply mean_nonneg. eapply Forall_impl; [|exact H]. cbv beta. intros; lra.
  - unfold Np.mean. destruct l as [|x l]; [congruence|].
    apply Qle_shift_div_r; [apply len_pos|].
    apply sum_le_len. eapply Forall_impl; [|exact H]. cbv beta. intros; lra.
Qed.

Lemma network_range (entity : TrustEntity) (events : list TrustEvent) :
  valid_entity entity ->
  0 <= NetworkDimension_calculate entity events <= 100.
Proof.
  intros [_ [_ Hc]]. unfold NetworkDimension_calculate. cbv zeta.
  assert (Hq : 0 <= (if Py.truthy (connections entity)
                     then Np.mean (map trust_score (connections entity)) * 0.4
                     else 0) <= 40).
  { destruct (connections entity) as [|k ks] eqn:E; cbn [Py.truthy]; [lra|].
    assert (0 <= Np.mean (map trust_score (k :: ks)) <= 100); [|lra].
    apply mean_range; [|discriminate].
    apply Forall_map. eapply Forall_impl; [|exact Hc].
    intros a [Ha Ha']. lra. }
  set (q := if Py.truthy (connections entity) then _ else 0) in *. clearbody q.
  repeat match goal with
         | |- context [Py.min ?x 20] =>
             let H := fresh "B" in
             let L := fresh "L" in
             let y := fresh "y" in
             assert (H : 0 <= Py.min x 20 <= 20);
             [ apply capped_range; [|lra];
               match x with
               | Py.len ?l / ?d * 20 =>
                   pose proof (len_nonneg l) as L;
                   assert (0 <= Py.len l / d) by (apply div_nonneg; lra); lra
               | Py.len ?l * 5 => pose proof (len_nonneg l) as L; lra
               end
             | set (y := Py.min x 20) in *; clearbody y ]
         end.
  lra.
Qed.

Lemma channel_trust_nonneg (key : string) : 0 <= dict_get CHANNEL_TRUST_SCORES key 20.
Proof.
  unfold CHANNEL_TRUST_SCORES. cbn [dict_get].
  repeat match goal with
         | |- context [String.eqb ?a ?b] => destruct (String.eqb a b)
         end; lra.
Qed.

Lemma linspace_nonneg (num : nat) : Forall (fun w => 0 <= w) (Np.linspace 0.5 1.0 num).
Proof.
  unfold Np.linspace.
  destruct num as [|[|n]]; [constructor | repeat constructor; lra |].
  apply Forall_forall. intros w Hw. apply in_map_iff in Hw.
  destruct Hw as [i [<- _]].
  assert (0 <= (1.0 - 0.5) / inject_Z (Z.of_nat (S n))).
  { apply div_nonneg; [lra|]. change 0 with (inject_Z 0). rewrite <- Zle_Qle. lia. }
  assert (0 <= inject_Z (Z.of_nat i)).
  { change 0 with (inject_Z 0). rewrite <- Zle_Qle. lia. }
  nra.
Qed.

Lemma average_nonneg (a w : list Q) :
  Forall (fun x => 0 <= x) a -> Forall (fun x => 0 <= x) w -> 0 <= Np.average a w.
Proof.
  intros Ha Hw. unfold Np.average. apply div_nonneg; apply sum_nonneg; [|assumption].
  apply Forall_forall. intros y Hy. apply in_map_iff in Hy.
  destruct Hy as [[x v] [<- Hin]]. cbn [fst snd].
  rewrite Forall_forall in Ha, Hw.
  pose proof (Ha x (in_combine_l _ _ _ _ Hin)).
  pose proof (Hw v (in_combine_r _ _ _ _ Hin)).
  nra.
Qed.

Lemma channel_range (entity : TrustEntity) (events : list TrustEvent) :
  0 <= ChannelDimension_calculate entity events <= 100.
Proof.
  unfold ChannelDimension_calculate. cbv zeta.
  destruct (negb (Py.truthy events)); [lra|].
  set (scores := map _ events).
  assert (Hs : Forall (fun x => 0 <= x) scores).
  { apply Forall_map, Forall_forall. intros e _. apply channel_trust_nonneg. }
  assert (Hw : 0 <= (if Py.Qltb 0 (Py.len (Np.linspace 0.5 1.0 (List.length scores)))
                     then Np.average scores (Np.linspace 0.5 1.0 (List.length scores))
                     else Np.mean scores)).
  { destruct (Py.Qltb 0 _);
      [apply average_nonneg; [assumption | apply linspace_nonneg]
      | now apply mean_nonneg]. }
  set (w := if Py.Qltb 0 _ then _ else _) in *. clearbody w.
  pose proof (len_nonneg (verified_channels events)) as L.
  assert (B : 0 <= Py.min (Py.len (verified_channels events) * 5) 15 <= 15)
    by (apply capped_range; lra).
  set (d := Py.min _ 15) in *. clearbody d.
  split; py_cases; lra.
Qed.

Lemma outcome_range (entity : TrustEntity) (events : list TrustEvent) (c : Clock) :
  0 <= fst (OutcomeDimension_calculate entity events c) <= 100.
Proof.
  unfold OutcomeDimension_calculate. cbv zeta.
  destruct (negb (Py.truthy events)); [cbn [ret fst]; lra|].
  unfold bind. destruct (filterM is_recent events c) as [recent c'].
  unfold ret. cbn [fst]. apply clamp_range.
Qed.

Lemma confidence_range (events : list TrustEvent) (scores : DimensionScores) (c : Clock) :
  0.1 <= fst (_calculate_confidence events scores c) <= 1.0.
Proof.
  unfold _calculate_confidence, bind.
  destruct (recency_confidence events c) as [r c'].
  unfold ret. cbn [fst]. cbv zeta.
  generalize (event_confidence events + consistency_confidence scores + r).
  intros total. split; py_cases; lra.
Qed.

Lemma days_nonneg (a b : datetime) : (b <= a)%Z -> (0 <= days (a - b)%Z)%Z.
Proof.
  intros H. unfold days, microseconds_per_day. apply Z.div_pos; lia.
Qed.

Lemma event_gaps_nonneg (dates : list datetime) :
  chronological dates -> Forall (fun g => 0 <= g) (map iz (event_gaps dates)).
Proof.
  induction dates as [|a [|b dates] IH] using list_ind; intros H.
  - constructor.
  - constructor.
  - destruct H as [Hab H]. cbn [event_gaps map]. constructor.
    + unfold iz. change 0 with (inject_Z 0). rewrite <- Zle_Qle.
      now apply days_nonneg.
    + apply IH. exact H.
Qed.

Lemma max_by_In {A : Type} (key : A -> Z) (e0 : A) (rest : list A) :
  In (Py.max_by key e0 rest) (e0 :: rest).
Proof.
  unfold Py.max_by. revert e0.
  induction rest as [|e rest IH]; intros e0; [now left|].
  cbn [fold_left].
  destruct (key e0 <? key e)%Z.
  - right. apply IH.
  - destruct (IH e0) as [H|H]; [left; exact H | right; right; exact H].
Qed.

Lemma age_score_range (now : datetime) (entity : TrustEntity) :
  (created_at entity <= now)%Z -> 0 <= age_score now entity <= 30.
Proof.
  intros H. unfold age_score. cbv zeta. apply capped_range; [|lra].
  assert (0 <= iz (days (now - created_at entity)%Z)).
  { unfold iz. change 0 with (inject_Z 0). rewrite <- Zle_Qle. now apply days_nonneg. }
  assert (0 <= iz (days (now - created_at entity)%Z) / 365) by (apply div_nonneg; lra).
  lra.
Qed.

Lemma consistency_score_range (events : list TrustEvent) :
  chronological (map timestamp events) -> 0 <= consistency_score events <= 30.
Proof.
  intros H. unfold consistency_score. cbv zeta.
  destruct (Py.truthy (event_gaps (map timestamp events))); [|lra].
  assert (0 <= Np.mean (map iz (event_gaps (map timestamp events))))
    by (apply mean_nonneg, event_gaps_nonneg, H).
  assert (0 <= Np.mean (map iz (event_gaps (map timestamp events))) / 10)
    by (apply div_nonneg; lra).
  split; py_cases; lra.
Qed.

Lemma recency_score_range (now : datetime) (latest_event : TrustEvent) :
  (timestamp latest_event <= now)%Z -> 0 <= recency_score now latest_event <= 20.
Proof.
  intros H. unfold recency_score. cbv zeta.
  assert (0 <= iz (days (now - timestamp latest_event)%Z)).
  { unfold iz. change 0 with (inject_Z 0). rewrite <- Zle_Qle. now apply days_nonneg. }
  assert (0 <= iz (days (now - timestamp latest_event)%Z) / 10) by (apply div_nonneg; lra).
  split; py_cases; lra.
Qed.

Lemma longevity_score_range (events : list TrustEvent) :
  0 <= longevity_score events <= 20.
Proof.
  unfold longevity_score. cbv zeta. apply capped_range; [|lra].
  pose proof (len_nonneg (filter is_positive events)).
  assert (0 <= Py.len (filter is_positive events) / 10) by (apply div_nonneg; lra).
  lra.
Qed.

(** X2. On a history in chronological order that does not reach into the
    future, the four components of the temporal score stay within their
    caps, and the score within [0,100]. *)
Theorem temporal_range_chronological
    (entity : TrustEntity) (events : list TrustEvent) (c : Clock)
    (Horder : chronological (map timestamp events))
    (Hcreated : (created_at entity <= c 0%nat)%Z)
    (Hpast : forall e, In e events -> (timestamp e <= c 1%nat)%Z) :
  0 <= fst (TemporalDimension_calculate entity events c) <= 100.
Proof.
  unfold TemporalDimension_calculate.
  destruct events as [|e0 rest]; [cbn [ret fst]; lra|].
  unfold bind, utcnow, ret. cbn [fst]. cbv zeta.
  pose proof (age_score_range (c 0%nat) entity Hcreated).
  pose proof (consistency_score_range (e0 :: rest) Horder).
  pose proof (recency_score_range (c 1%nat) (Py.max_by timestamp e0 rest)
                (Hpast _ (max_by_In timestamp e0 rest))).
  pose proof (longevity_score_range (e0 :: rest)).
  lra.
Qed.

(** X1. Whatever the events and the clock, every score but the temporal one is
    within [0,100] and the confidence within [0.1,1.0], for an entity whose
    connections have a trust score in [0,100]. *)
Theorem scores_in_range (entity : TrustEntity) (events : list TrustEvent) (c : Clock) :
  valid_entity entity ->
  let score := fst (TrustEngine_calculate_trust entity events c) in
  0 <= source_score score <= 100 /\
  0 <= channel_score score <= 100 /\
  0 <= outcome_score score <= 100 /\
  0 <= network_score score <= 100 /\
  0 <= justice_score score <= 100 /\
  0 <= people_score score <= 100 /\
  0 <= legal_score score <= 100 /\
  0 <= state_score score <= 100 /\
  0 <= chitty_score score <= 100 /\
  0.1 <= confidence score <= 1.0 /\
  temporal_score score = fst (TemporalDimension_calculate entity events c).
Proof.
  intros Hv. cbv zeta.
  unfold TrustEngine_calculate_trust, bind.
  destruct (TemporalDimension_calculate entity events c) as [t c1].
  pose proof (outcome_range entity events c1) as Ho.
  destruct (OutcomeDimension_calculate entity events c1) as [o c2].
  match goal with |- context [_calculate_confidence events ?s c2] =>
    pose proof (confidence_range events s c2) as Hk;
    destruct (_calculate_confidence events s c2) as [k c3] end.
  unfold utcnow, ret.
  cbn [fst source_score temporal_score channel_score outcome_score network_score
       justice_score people_score legal_score state_score chitty_score confidence]
    in *.
  repeat split;
    first [ apply source_range | apply channel_range | apply network_range; assumption
          | apply justice_range | apply clamp_range | apply Ho | apply Hk ].
Qed.

(** C1 fails on the code.  The temporal scorer does not clamp its sum and
    takes the gaps between events in the order of the list: on a history
    listed latest first (an event at day 2000, then one at day 0, assessed
    at day 2000) the consistency component is 230 and the temporal score of
    the result is 284, above 100. *)
Theorem temporal_score_exceeds_range :
  let events := [Samples.event TRANSACTION 2000 POSITIVE [];
                 Samples.event TRANSACTION 0 POSITIVE []] in
  let score := fst (TrustEngine_calculate_trust Samples.alice events (Samples.clock_at 2000)) in
  valid_entity Samples.alice /\
  Forall valid_event events /\
  consistency_score events == 230 /\
  temporal_score score == 284 /\
  ~ temporal_score score <= 100.
Proof.
  cbv zeta. split; [|split; [|split; [|split]]].
  - unfold valid_entity. cbn. repeat split; try discriminate. constructor.
  - repeat constructor; cbn; discriminate.
  - vm_compute. reflexivity.
  - vm_compute. reflexivity.
  - intros H. vm_compute in H. apply H. reflexivity.
Qed.

(** * Further properties of the engine and of the analytics *)

(** ** Ratios and the outcome score *)

Lemma ratio_range {A : Type} (p : A -> bool) (l : list A) :
  0 <= Py.len (filter p l) / Py.len l <= 1.
Proof.
  split.
  - apply div_nonneg; apply len_nonneg.
  - destruct l as [|x l].
    + change (Py.len (filter p []) / Py.len (@nil A)) with (0 / 0). unfold Qdiv.
      setoid_replace (0 * / 0) with 0 by ring. lra.
    + apply Qle_shift_div_r; [apply len_pos|].
      pose proof (len_filter_le p (x :: l)). lra.
Qed.

Lemma outcome_score_value (entity : TrustEntity) (e0 : TrustEvent) (rest : list TrustEvent) (c : Clock) :
  let events := e0 :: rest in
  let positive_ratio := Py.len (filter is_positive events) / Py.len events in
  let negative_ratio := Py.len (filter is_negative events) / Py.len events in
  let recent := OutcomeSpec.last_90_days c events in
  fst (OutcomeDimension_calculate entity events c) =
    Py.max 0
      (Py.min
         (positive_ratio * 70 - negative_ratio * 100
          + consistency_bonus positive_ratio (Py.len events)
          + (if Py.truthy recent
             then (Py.len (filter is_positive recent) / Py.len recent - positive_ratio) * 20
             else 0))
         100).
Proof.
  cbv zeta. unfold OutcomeDimension_calculate.
  change (negb (Py.truthy (e0 :: rest))) with false. cbv iota.
  unfold bind. pose proof (filterM_is_recent (e0 :: rest) c) as R.
  destruct (filterM is_recent (e0 :: rest) c) as [recent c']. cbn [fst] in R.
  subst recent. reflexivity.
Qed.

Lemma consistency_bonus_le (positive_ratio total_events : Q) :
  0 <= consistency_bonus positive_ratio total_events <= 20.
Proof.
  unfold consistency_bonus.
  destruct (Py.Qltb 0.8 positive_ratio && Py.Qltb 10 total_events); [lra|].
  destruct (Py.Qltb 0.6 positive_ratio); lra.
Qed.

(** X3. The outcome score never reaches the cap of 100: it is at most 90. *)
Theorem outcome_at_most_90 (entity : TrustEntity) (events : list TrustEvent) (c : Clock) :
  fst (OutcomeDimension_calculate entity events c) <= 90.
Proof.
  destruct events as [|e0 rest]; [cbn; lra|].
  rewrite outcome_score_value. cbv zeta.
  pose proof (ratio_range is_positive (e0 :: rest)) as Hp.
  pose proof (ratio_range is_negative (e0 :: rest)) as Hn.
  pose proof (ratio_range is_positive (OutcomeSpec.last_90_days c (e0 :: rest))) as Hr.
  pose proof (consistency_bonus_le
                (Py.len (filter is_positive (e0 :: rest)) / Py.len (e0 :: rest))
                (Py.len (e0 :: rest))) as Hb.
  set (p := Py.len (filter is_positive (e0 :: rest)) / Py.len (e0 :: rest)) in *.
  set (n := Py.len (filter is_negative (e0 :: rest)) / Py.len (e0 :: rest)) in *.
  set (r := Py.len (filter is_positive (OutcomeSpec.last_90_days c (e0 :: rest)))
            / Py.len (OutcomeSpec.last_90_days c (e0 :: rest))) in *.
  set (b := consistency_bonus p (Py.len (e0 :: rest))) in *.
  clearbody p n r b.
  destruct (Py.truthy (OutcomeSpec.last_90_days c (e0 :: rest))); py_cases; lra.
Qed.





(** ** Source dimension: full marks *)

Lemma len_ge {A : Type} (k : nat) (l : list A) :
  inject_Z (Z.of_nat k) <= Py.len l <-> (k <= List.length l)%nat.
Proof. unfold Py.len. rewrite <- Zle_Qle. lia. Qed.

(** X5. The source score is 100 exactly for a verified identity with a
    government id among the credentials and at least four professional
    credentials. *)
Theorem source_full_marks_iff (entity : TrustEntity) (events : list TrustEvent) :
  SourceDimension_calculate entity events == 100 <->
  identity_verified entity = true /\
  existsb government_id (credentials entity) = true /\
  (4 <= List.length (filter professional (credentials entity)))%nat.
Proof.
  unfold SourceDimension_calculate. cbv zeta.
  fold professional. fold government_id.
  change (fun c : Credential => is_str (c_type c) "government_id") with government_id.
  change (fun c : Credential => is_str (c_type c) "professional") with professional.
  pose proof (len_ge 4 (filter professional (credentials entity))) as H4.
  change (inject_Z (Z.of_nat 4)) with 4 in H4.
  pose proof (len_filter_le professional (credentials entity)) as Hle.
  pose proof (len_nonneg (filter professional (credentials entity))) as Hp.
  pose proof (len_nonneg (credentials entity)) as Hc.
  rewrite <- H4. clear H4.
  set (n := Py.len (credentials entity)) in *.
  set (p := Py.len (filter professional (credentials entity))) in *.
  clearbody n p.
  destruct (identity_verified entity), (existsb government_id (credentials entity));
    split.
  all: try (intros [Ha [Hb Hd]]; try discriminate; py_cases; lra).
  all: intros E; py_cases; try (exfalso; lra); repeat split; lra.
Qed.

(** ** The order of the events *)

Lemma filter_perm {A : Type} (p : A -> bool) (l l' : list A) :
  Permutation l l' -> Permutation (filter p l) (filter p l').
Proof.
  induction 1 as [|x l l' _ IH|x y l|l l' l'' _ IH1 _ IH2]; cbn [filter].
  - constructor.
  - destruct (p x); [now constructor | exact IH].
  - destruct (p x), (p y); try reflexivity. apply perm_swap.
  - now transitivity (filter p l').
Qed.

Lemma len_filter_perm {A : Type} (p : A -> bool) (l l' : list A) :
  Permutation l l' -> Py.len (filter p l) = Py.len (filter p l').
Proof.
  intros H. unfold Py.len. now rewrite (Permutation_length (filter_perm p l l' H)).
Qed.

(** X8. The network and justice scores do not depend on the order in which the
    events are listed. *)
Theorem network_justice_order_independent
    (entity : TrustEntity) (events events' : list TrustEvent)
    (H : Permutation events events') :
  NetworkDimension_calculate entity events = NetworkDimension_calculate entity events' /\
  JusticeDimension_calculate entity events = JusticeDimension_calculate entity events'.
Proof.
  unfold NetworkDimension_calculate, JusticeDimension_calculate. cbv zeta.
  rewrite !(len_filter_perm _ events events' H). split; reflexivity.
Qed.

Lemma network_justice_order_independent_witness :
  let a := Samples.event ENDORSEMENT 10 POSITIVE ["justice"] in
  let b := Samples.event TRANSACTION 12 NEGATIVE [] in
  Permutation [a; b] [b; a] /\
  NetworkDimension_calculate Samples.alice [a; b] =
    NetworkDimension_calculate Samples.alice [b; a] /\
  JusticeDimension_calculate Samples.alice [a; b] =
    JusticeDimension_calculate Samples.alice [b; a].
Proof.
  intros a b.
  assert (H : Permutation [a; b] [b; a]) by apply perm_swap.
  split; [exact H|].
  exact (network_justice_order_independent Samples.alice [a; b] [b; a] H).
Defined.

(** X9. For given dimension scores and entity, the people, legal and state
    scores do not depend on the order in which the events are listed: they
    use the events only through counts. *)
Theorem output_scores_order_independent
    (dimension_scores : DimensionScores) (entity : TrustEntity)
    (events events' : list TrustEvent)
    (H : Permutation events events') :
  PeopleScore_calculate dimension_scores entity events =
    PeopleScore_calculate dimension_scores entity events' /\
  LegalScore_calculate dimension_scores entity events =
    LegalScore_calculate dimension_scores entity events' /\
  StateScore_calculate dimension_scores entity events =
    StateScore_calculate dimension_scores entity events'.
Proof.
  unfold PeopleScore_calculate, LegalScore_calculate, StateScore_calculate. cbv zeta.
  rewrite !(len_filter_perm _ events events' H). repeat split.
Qed.

Lemma output_scores_order_independent_witness :
  let a := Samples.event ENDORSEMENT 10 POSITIVE ["charity"; "compliance"] in
  let b := Samples.event TRANSACTION 12 NEGATIVE ["violation"; "protest"] in
  let d := {| source := 30; temporal := 40; channel_ := 60;
              outcome_ := 35; network := 5; justice := 8 |} in
  Permutation [a; b] [b; a] /\
  (PeopleScore_calculate d Samples.alice [a; b] =
     PeopleScore_calculate d Samples.alice [b; a] /\
   LegalScore_calculate d Samples.alice [a; b] =
     LegalScore_calculate d Samples.alice [b; a] /\
   StateScore_calculate d Samples.alice [a; b] =
     StateScore_calculate d Samples.alice [b; a]).
Proof.
  intros a b d.
  assert (H : Permutation [a; b] [b; a]) by apply perm_swap.
  split; [exact H|].
  exact (output_scores_order_independent d Samples.alice [a; b] [b; a] H).
Defined.

(** ** Penalised events *)

Lemma len_filter_insert {A : Type} (p : A -> bool) (l1 l2 : list A) (x : A) :
  Py.len (filter p (l1 ++ x :: l2)) ==
  Py.len (filter p (l1 ++ l2)) + (if p x then 1 else 0).
Proof.
  rewrite (len_filter_perm p (l1 ++ x :: l2) (x :: l1 ++ l2)).
  - cbn [filter]. destruct (p x); [apply len_cons | ring].
  - symmetry. apply Permutation_middle.
Qed.

(** X10. An event tagged as a legal violation never raises the legal score,
    whatever else it is tagged with. *)
Theorem legal_violation_never_raises
    (dimension_scores : DimensionScores) (entity : TrustEntity)
    (before after : list TrustEvent) (e : TrustEvent)
    (H : tagged_any ["violation"; "breach"; "illegal"; "sanctioned"] e = true) :
  LegalScore_calculate dimension_scores entity (before ++ e :: after) <=
  LegalScore_calculate dimension_scores entity (before ++ after).
Proof.
  unfold LegalScore_calculate. cbv zeta.
  pose proof (len_filter_insert
    (tagged_any ["compliance"; "regulatory"; "audit_passed"; "certification"])
    before after e) as Hc.
  pose proof (len_filter_insert
    (tagged_any ["violation"; "breach"; "illegal"; "sanctioned"]) before after e) as Hv.
  rewrite H in Hv.
  set (c' := Py.len (filter _ (before ++ e :: after))) in *.
  set (c := Py.len (filter _ (before ++ after))) in *.
  set (v' := Py.len (filter (tagged_any ["violation"; "breach"; "illegal"; "sanctioned"])
                            (before ++ e :: after))) in *.
  set (v := Py.len (filter (tagged_any ["violation"; "breach"; "illegal"; "sanctioned"])
                           (before ++ after))) in *.
  set (doc := if Py.truthy (credentials entity) then _ else 0).
  set (base := weighted dimension_scores _ _ _ _ _ _).
  clearbody c' c v' v doc base.
  destruct (tagged_any ["compliance"; "regulatory"; "audit_passed"; "certification"] e);
    py_cases; lra.
Qed.

Lemma legal_violation_never_raises_witness :
  let d := {| source := 30; temporal := 40; channel_ := 60;
              outcome_ := 35; network := 5; justice := 8 |} in
  let e := Samples.event DISPUTE 10 NEGATIVE ["breach"; "compliance"] in
  tagged_any ["violation"; "breach"; "illegal"; "sanctioned"] e = true /\
  LegalScore_calculate d Samples.alice ([] ++ e :: []) <=
  LegalScore_calculate d Samples.alice ([] ++ []).
Proof.
  intros d e.
  assert (H : tagged_any ["violation"; "breach"; "illegal"; "sanctioned"] e = true)
    by reflexivity.
  split; [exact H|].
  exact (legal_violation_never_raises d Samples.alice [] [] e H).
Defined.

(** X11. An event tagged as anti-social never raises the people score. *)
Theorem antisocial_event_never_raises
    (dimension_scores : DimensionScores) (entity : TrustEntity)
    (before after : list TrustEvent) (e : TrustEvent)
    (H : tagged_any ["harassment"; "discrimination"; "fraud"; "violation"] e = true) :
  PeopleScore_calculate dimension_scores entity (before ++ e :: after) <=
  PeopleScore_calculate dimension_scores entity (before ++ after).
Proof.
  unfold PeopleScore_calculate. cbv zeta.
  pose proof (len_filter_insert
    (tagged_any ["community"; "volunteer"; "charity"; "public_good"])
    before after e) as Hc.
  pose proof (len_filter_insert
    (tagged_any ["harassment"; "discrimination"; "fraud"; "violation"])
    before after e) as Hv.
  rewrite H in Hv.
  set (c' := Py.len (filter _ (before ++ e :: after))) in *.
  set (c := Py.len (filter _ (before ++ after))) in *.
  set (v' := Py.len (filter (tagged_any ["harassment"; "discrimination"; "fraud"; "violation"])
                            (before ++ e :: after))) in *.
  set (v := Py.len (filter (tagged_any ["harassment"; "discrimination"; "fraud"; "violation"])
                           (before ++ after))) in *.
  set (base := weighted dimension_scores _ _ _ _ _ _).
  clearbody c' c v' v base.
  destruct (tagged_any ["community"; "volunteer"; "charity"; "public_good"] e);
    py_cases; lra.
Qed.

Lemma antisocial_event_never_raises_witness :
  let d := {| source := 30; temporal := 40; channel_ := 60;
              outcome_ := 35; network := 5; justice := 8 |} in
  let e := Samples.event DISPUTE 10 NEGATIVE ["fraud"; "charity"] in
  tagged_any ["harassment"; "discrimination"; "fraud"; "violation"] e = true /\
  PeopleScore_calculate d Samples.alice ([] ++ e :: []) <=
  PeopleScore_calculate d Samples.alice ([] ++ []).
Proof.
  intros d e.
  assert (H : tagged_any ["harassment"; "discrimination"; "fraud"; "violation"] e = true)
    by reflexivity.
  split; [exact H|].
  exact (antisocial_event_never_raises d Samples.alice [] [] e H).
Defined.

(** X12. An event tagged as protest, dissent, whistleblowing or activism,
    and with none of the institutional tags, never raises the state score:
    the penalty grows by 2 and no bonus grows. *)
Theorem dissent_event_never_raises
    (dimension_scores : DimensionScores) (entity : TrustEntity)
    (before after : list TrustEvent) (e : TrustEvent)
    (H : tagged_any ["protest"; "dissent"; "whistleblower"; "activist"] e = true)
    (Hinst : tagged_any ["government"; "institutional"; "official"; "licensed"] e = false) :
  StateScore_calculate dimension_scores entity (before ++ e :: after) <=
  StateScore_calculate dimension_scores entity (before ++ after).
Proof.
  unfold StateScore_calculate. cbv zeta.
  pose proof (len_filter_insert
    (tagged_any ["government"; "institutional"; "official"; "licensed"])
    before after e) as Hc.
  pose proof (len_filter_insert
    (tagged_any ["protest"; "dissent"; "whistleblower"; "activist"])
    before after e) as Hv.
  rewrite H in Hv. rewrite Hinst in Hc.
  set (c' := Py.len (filter _ (before ++ e :: after))) in *.
  set (c := Py.len (filter _ (before ++ after))) in *.
  set (v' := Py.len (filter (tagged_any ["protest"; "dissent"; "whistleblower"; "activist"])
                            (before ++ e :: after))) in *.
  set (v := Py.len (filter (tagged_any ["protest"; "dissent"; "whistleblower"; "activist"])
                           (before ++ after))) in *.
  set (gov := Py.len (filter _ (credentials entity)) * 15).
  set (base := weighted dimension_scores _ _ _ _ _ _).
  clearbody c' c v' v gov base.
  py_cases; lra.
Qed.

Lemma dissent_event_never_raises_witness :
  let d := {| source := 30; temporal := 40; channel_ := 60;
              outcome_ := 35; network := 5; justice := 8 |} in
  let e := Samples.event INTERACTION 10 NEUTRAL ["protest"; "community"] in
  tagged_any ["protest"; "dissent"; "whistleblower"; "activist"] e = true /\
  tagged_any ["government"; "institutional"; "official"; "licensed"] e = false /\
  StateScore_calculate d Samples.alice ([] ++ e :: []) <=
  StateScore_calculate d Samples.alice ([] ++ []).
Proof.
  intros d e.
  assert (H : tagged_any ["protest"; "dissent"; "whistleblower"; "activist"] e = true)
    by reflexivity.
  assert (Hinst : tagged_any ["government"; "institutional"; "official"; "licensed"] e = false)
    by reflexivity.
  split; [exact H|]. split; [exact Hinst|].
  exact (dissent_event_never_raises d Samples.alice [] [] e H Hinst).
Defined.

(** ** Confidence and the clock of an assessment *)

Lemma confidence_clock (events : list TrustEvent) (scores : DimensionScores) (c : Clock) :
  snd (_calculate_confidence events scores c) = shift (confidence_readings events) c.
Proof.
  unfold _calculate_confidence, recency_confidence.
  destruct events as [|e0 rest]; reflexivity.
Qed.

(** The result of an assessment, step by step: the clock that each
    effectful step starts from, and the dimension scores it passes on. *)
Lemma engine_steps (entity : TrustEntity) (events : list TrustEvent) (c : Clock) :
  let c1 := shift (temporal_readings events) c in
  let c2 := shift (outcome_readings events) c1 in
  let c3 := shift (confidence_readings events) c2 in
  exists scores,
    confidence (fst (TrustEngine_calculate_trust entity events c)) =
      fst (_calculate_confidence events scores c2) /\
    calculated_at (fst (TrustEngine_calculate_trust entity events c)) = c3 0%nat /\
    forall n, snd (TrustEngine_calculate_trust entity events c) n = c3 (S n).
Proof.
  cbv zeta.
  pose proof (temporal_clock entity events c) as H1.
  pose proof (outcome_clock entity events (shift (temporal_readings events) c)) as H2.
  unfold TrustEngine_calculate_trust, bind.
  destruct (TemporalDimension_calculate entity events c) as [t c1].
  cbn [snd] in H1. subst c1.
  destruct (OutcomeDimension_calculate entity events _) as [o c2].
  cbn [snd] in H2. subst c2.
  match goal with |- context [_calculate_confidence events ?s ?c2] =>
    exists s; pose proof (confidence_clock events s c2) as H3;
    destruct (_calculate_confidence events s c2) as [k c3] end.
  cbn [snd] in H3. subst c3.
  unfold utcnow, ret. cbn [fst snd confidence calculated_at].
  repeat split.
Qed.

(** X14. The result is stamped with the reading that follows those the scorers
    took, and the call leaves the clock right after it. *)
Theorem calculated_at_is_last_reading (entity : TrustEntity) (events : list TrustEvent) (c : Clock) :
  calculated_at (fst (TrustEngine_calculate_trust entity events c)) = c (readings events) /\
  forall n, snd (TrustEngine_calculate_trust entity events c) n = c (S (readings events) + n)%nat.
Proof.
  destruct (engine_steps entity events c) as [scores [_ [Hs Hc]]].
  unfold shift, readings in *. split.
  - rewrite Hs. f_equal. lia.
  - intros n. rewrite Hc. f_equal. lia.
Qed.





Lemma scores_in_range_witness :
  let events := [Samples.event TRANSACTION 10 POSITIVE ["justice"];
                 Samples.event DISPUTE 12 NEGATIVE ["violation"]] in
  let score := fst (TrustEngine_calculate_trust Samples.alice events (Samples.clock_at 20)) in
  valid_entity Samples.alice /\
  (0 <= source_score score <= 100 /\
   0 <= channel_score score <= 100 /\
   0 <= outcome_score score <= 100 /\
   0 <= network_score score <= 100 /\
   0 <= justice_score score <= 100 /\
   0 <= people_score score <= 100 /\
   0 <= legal_score score <= 100 /\
   0 <= state_score score <= 100 /\
   0 <= chitty_score score <= 100 /\
   0.1 <= confidence score <= 1.0 /\
   temporal_score score =
     fst (TemporalDimension_calculate Samples.alice events (Samples.clock_at 20))).
Proof.
  intros events.
  assert (H : valid_entity Samples.alice).
  { unfold valid_entity. cbn. repeat split; try discriminate. constructor. }
  split; [exact H|].
  exact (scores_in_range Samples.alice events (Samples.clock_at 20) H).
Defined.

Lemma temporal_range_chronological_witness :
  let events := [Samples.event TRANSACTION 0 POSITIVE [];
                 Samples.event TRANSACTION 2000 POSITIVE []] in
  let c := Samples.clock_at 2000 in
  chronological (map timestamp events) /\
  (created_at Samples.alice <= c 0%nat)%Z /\
  (forall e, In e events -> (timestamp e <= c 1%nat)%Z) /\
  0 <= fst (TemporalDimension_calculate Samples.alice events c) <= 100.
Proof.
  intros events c.
  assert (H1 : chronological (map timestamp events)).
  { cbn. split; [discriminate | exact I]. }
  assert (H2 : (created_at Samples.alice <= c 0%nat)%Z) by discriminate.
  assert (H3 : forall e, In e events -> (timestamp e <= c 1%nat)%Z).
  { intros e [<-|[<-|[]]]; discriminate. }
  split; [exact H1|]. split; [exact H2|]. split; [exact H3|].
  exact (temporal_range_chronological Samples.alice events c H1 H2 H3).
Defined.

(** ** Confidence intervals *)

Lemma margin_range (events : list TrustEvent) : 5 <= Analytics.margin events <= 15.
Proof.
  unfold Analytics.margin. cbv zeta.
  pose proof (len_nonneg events). split; py_cases; lra.
Qed.

Lemma margin_antitone (events events' : list TrustEvent) :
  (List.length events <= List.length events')%nat ->
  Analytics.margin events' <= Analytics.margin events.
Proof.
  intros H. unfold Analytics.margin. cbv zeta.
  assert (Py.len events <= Py.len events').
  { unfold Py.len. rewrite <- Zle_Qle. lia. }
  py_cases; lra.
Qed.

(** X15. Every interval belongs to a score of the dictionary; its lower
    bound is at least 0 and its upper bound at most 100.  For a score
    within [0,100] the interval contains the score, and so lies within
    [0,100].  The bounds are clamped on one side only: for a score above
    115 the lower bound is above the upper bound 100, and for a score below
    -15 the upper bound is below the lower bound 0. *)
Theorem confidence_interval_brackets_score
    (scores : list (string * Q)) (events : list TrustEvent)
    (dimension : string) (lower upper : Q)
    (H : In (dimension, (lower, upper))
            (Analytics.calculate_confidence_intervals scores events)) :
  exists score,
    In (dimension, score) scores /\
    0 <= lower /\ upper <= 100 /\
    (0 <= score <= 100 -> lower <= score <= upper) /\
    (115 < score -> upper == 100 /\ 100 < lower) /\
    (score < -15 -> lower == 0 /\ upper < 0).
Proof.
  unfold Analytics.calculate_confidence_intervals in H.
  apply in_map_iff in H. destruct H as [[d s] [E Hin]].
  cbn [fst snd] in E. injection E as <- <- <-.
  exists s. split; [exact Hin|].
  pose proof (margin_range events) as Hm.
  set (m := Analytics.margin events) in *. clearbody m.
  split; [py_cases; lra|]. split; [py_cases; lra|].
  split; [intros Hs; split; py_cases; lra|].
  split; intros Hs; split; py_cases; lra.
Qed.

Lemma confidence_interval_brackets_score_witness :
  let scores := [("source", 30); ("temporal", 284)] in
  let events := [Samples.foreign_event] in
  let lower := Py.max 0 (284 - Analytics.margin events) in
  let upper := Py.min 100 (284 + Analytics.margin events) in
  In ("temporal", (lower, upper))
     (Analytics.calculate_confidence_intervals scores events) /\
  exists score,
    In ("temporal", score) scores /\
    0 <= lower /\ upper <= 100 /\
    (0 <= score <= 100 -> lower <= score <= upper) /\
    (115 < score -> upper == 100 /\ 100 < lower) /\
    (score < -15 -> lower == 0 /\ upper < 0).
Proof.
  intros scores events lower upper.
  assert (H : In ("temporal", (lower, upper))
                 (Analytics.calculate_confidence_intervals scores events)).
  { right. left. reflexivity. }
  split; [exact H|].
  exact (confidence_interval_brackets_score scores events "temporal" lower upper H).
Defined.

(** X16. More events never widen an interval: with at least as many events,
    each interval lies within the one computed from fewer events; from 20
    events on the margin is 5. *)
Theorem confidence_intervals_narrow
    (scores : list (string * Q)) (events events' : list TrustEvent)
    (H : (List.length events <= List.length events')%nat) :
  Forall2
    (fun wide narrow =>
       fst wide = fst narrow /\
       fst (snd wide) <= fst (snd narrow) /\
       snd (snd narrow) <= snd (snd wide))
    (Analytics.calculate_confidence_intervals scores events)
    (Analytics.calculate_confidence_intervals scores events')
  /\
  ((20 <= List.length events)%nat -> Analytics.margin events == 5).
Proof.
  split.
  - pose proof (margin_antitone events events' H) as Hm.
    unfold Analytics.calculate_confidence_intervals.
    set (m := Analytics.margin events) in *.
    set (m' := Analytics.margin events') in *. clearbody m m'.
    induction scores as [|[d s] scores IH]; cbn [map]; constructor; [|exact IH].
    cbn [fst snd]. repeat split; py_cases; lra.
  - intros H20. unfold Analytics.margin. cbv zeta.
    assert (20 <= Py.len events).
    { apply (len_ge 20). exact H20. }
    py_cases; lra.
Qed.

Lemma confidence_intervals_narrow_witness :
  let scores := [("source", 30); ("temporal", 97)] in
  let events := [Samples.foreign_event] in
  let events' := [Samples.foreign_event; Samples.foreign_event] in
  (List.length events <= List.length events')%nat /\
  (Forall2
     (fun wide narrow =>
        fst wide = fst narrow /\
        fst (snd wide) <= fst (snd narrow) /\
        snd (snd narrow) <= snd (snd wide))
     (Analytics.calculate_confidence_intervals scores events)
     (Analytics.calculate_confidence_intervals scores events')
   /\
   ((20 <= List.length events)%nat -> Analytics.margin events == 5)).
Proof.
  intros scores events events'.
  assert (H : (List.length events <= List.length events')%nat) by (cbn; lia).
  split; [exact H|].
  exact (confidence_intervals_narrow scores events events' H).
Defined.

(** ** Behavioural patterns: what a pattern reports *)

Lemma max_by_ge {A : Type} (key : A -> Z) (e0 : A) (rest : list A) :
  forall e, In e (e0 :: rest) -> (key e <= key (Py.max_by key e0 rest))%Z.
Proof.
  unfold Py.max_by. revert e0.
  assert (G : forall l b, (key b <= key (fold_left
              (fun best e => if (key best <? key e)%Z then e else best) l b))%Z).
  { induction l as [|x l IH]; intros b; cbn [fold_left]; [lia|].
    destruct (Z.ltb_spec (key b) (key x)).
    - specialize (IH x). lia.
    - apply IH. }
  induction rest as [|x rest IH]; intros e0 e He.
  - destruct He as [<-|[]]. cbn. lia.
  - cbn [fold_left]. destruct He as [<-|[<-|He]].
    + destruct (Z.ltb_spec (key e0) (key x)).
      * specialize (G rest x). lia.
      * apply G.
    + destruct (Z.ltb_spec (key e0) (key x)).
      * apply G.
      * specialize (G rest e0). lia.
    + apply IH. now right.
Qed.

Lemma last_timestamp_latest (l : list TrustEvent) :
  l <> [] ->
  (forall e, In e l -> (timestamp e <= last_timestamp l)%Z) /\
  (exists e, In e l /\ timestamp e = last_timestamp l).
Proof.
  intros Hne. destruct l as [|e0 rest]; [congruence|]. cbn [last_timestamp]. split.
  - apply (max_by_ge timestamp).
  - exists (Py.max_by timestamp e0 rest). split; [apply max_by_In | reflexivity].
Qed.

(** X17. A returned [community_engagement] pattern reports, as its frequency,
    the number of matching events, which is more than 8, and, as its last
    occurrence, the latest timestamp among the matching events. *)
Theorem community_pattern_reports
    (entity : TrustEntity) (events : list TrustEvent) (p : TrustPattern)
    (Hin : In p (detect_patterns entity events))
    (Ht : pattern_type p = "community_engagement") :
  frequency p = Py.len (community_events events) /\
  (8 < List.length (community_events events))%nat /\
  (forall e, In e (community_events events) -> (timestamp e <= last_occurrence p)%Z) /\
  (exists e, In e (community_events events) /\ timestamp e = last_occurrence p).
Proof.
  rewrite detect_patterns_unfold in Hin. apply in_app_or in Hin.
  destruct Hin as [Hin|Hin].
  - destruct (Qltb_spec 8 (Py.len (community_events events))) as [L|L];
      [|contradiction].
    destruct Hin as [<-|[]]. cbn [frequency last_occurrence].
    apply (len_gt 8) in L.
    split; [reflexivity|]. split; [exact L|].
    apply last_timestamp_latest. intros E. rewrite E in L. cbn in L. lia.
  - destruct (Py.Qltb 3 _); [|contradiction].
    destruct Hin as [<-|[]]. discriminate Ht.
Qed.

Lemma community_pattern_reports_witness :
  let events := repeat (Samples.event ENDORSEMENT 10 POSITIVE []) 9 in
  let p := {| pattern_type := "community_engagement";
              description := "Strong pattern of community involvement and collaborative activities";
              frequency := 9;
              last_occurrence := Samples.day 10;
              risk_level := "low";
              recommendation := "Excellent for community-focused initiatives" |} in
  In p (detect_patterns Samples.alice events) /\
  pattern_type p = "community_engagement" /\
  frequency p = Py.len (community_events events) /\
  (8 < List.length (community_events events))%nat /\
  (forall e, In e (community_events events) -> (timestamp e <= last_occurrence p)%Z) /\
  (exists e, In e (community_events events) /\ timestamp e = last_occurrence p).
Proof.
  intros events p.
  assert (Hin : In p (detect_patterns Samples.alice events)) by (left; reflexivity).
  assert (Ht : pattern_type p = "community_engagement") by reflexivity.
  split; [exact Hin|]. split; [exact Ht|].
  exact (community_pattern_reports Samples.alice events p Hin Ht).
Defined.

Lemma professional_events_nil (events : list TrustEvent) : professional_events events = [].
Proof.
  unfold professional_events.
  induction events as [|e events IH]; [reflexivity|].
  cbn [filter]. rewrite IH.
  replace (in_strs (event_type e) ["certification"; "professional_development"; "training"])
    with false; [reflexivity|].
  destruct (event_type e); reflexivity.
Qed.

(** X18. No event type of the model is [certification], [professional_development],
    [training] or [community_service]: a [professional_development] pattern
    is never returned, and the community pattern counts endorsements and
    collaborations only. *)
Theorem professional_development_unreachable (entity : TrustEntity) (events : list TrustEvent) :
  ~ has_pattern "professional_development" (detect_patterns entity events) /\
  community_events events =
    filter (fun e => match event_type e with
                     | ENDORSEMENT | COLLABORATION => true
                     | _ => false
                     end) events.
Proof.
  split.
  - intros [p [Hin Ht]]. rewrite detect_patterns_unfold in Hin.
    rewrite professional_events_nil in Hin.
    change (Py.Qltb 3 (Py.len (@nil TrustEvent))) with false in Hin.
    rewrite app_nil_r in Hin.
    destruct (Py.Qltb 8 _); [|contradiction].
    destruct Hin as [<-|[]]. discriminate Ht.
  - unfold community_events. apply filter_ext. intros e.
    destruct (event_type e); reflexivity.
Qed.

(** ** Sorting *)

Section Sorting.

Context {A : Type}.
Variable before : A -> A -> bool.
Variable R : A -> A -> Prop.
Hypothesis before_true : forall y x, before y x = true -> R y x.
Hypothesis before_false : forall y x, before y x = false -> R x y.
Hypothesis R_trans : forall x y z, R x y -> R y z -> R x z.

Lemma insert_by_perm (x : A) (l : list A) : Permutation (insert_by before x l) (x :: l).
Proof.
  induction l as [|y l IH]; cbn [insert_by]; [reflexivity|].
  destruct (before y x); [|reflexivity].
  rewrite IH. apply perm_swap.
Qed.

Lemma sorted_by_perm (l : list A) : Permutation (sorted_by before l) l.
Proof.
  induction l as [|x l IH]; cbn [sorted_by fold_right]; [constructor|].
  fold (sorted_by before l). rewrite insert_by_perm. now constructor.
Qed.

Lemma insert_by_sorted (x : A) (l : list A) :
  StronglySorted R l -> StronglySorted R (insert_by before x l).
Proof.
  induction 1 as [|y l Hs IH Hy]; cbn [insert_by].
  - repeat constructor.
  - destruct (before y x) eqn:E.
    + constructor; [exact IH|].
      apply Forall_forall. intros z Hz.
      apply (Permutation_in _ (insert_by_perm x l)) in Hz.
      destruct Hz as [<-|Hz]; [now apply before_true|].
      rewrite Forall_forall in Hy. now apply Hy.
    + constructor; [now constructor|].
      constructor; [now apply before_false|].
      apply Forall_forall. intros z Hz. rewrite Forall_forall in Hy.
      apply (R_trans x y z); [now apply before_false | now apply Hy].
Qed.

Lemma sorted_by_sorted (l : list A) : StronglySorted R (sorted_by before l).
Proof.
  induction l as [|x l IH]; cbn [sorted_by fold_right]; [constructor|].
  fold (sorted_by before l). now apply insert_by_sorted.
Qed.

End Sorting.

Lemma sorted_app_le {A : Type} (R : A -> A -> Prop) (l1 l2 : list A) :
  StronglySorted R (l1 ++ l2) -> forall a b, In a l1 -> In b l2 -> R a b.
Proof.
  induction l1 as [|x l1 IH]; intros H a b Ha Hb; [contradiction|].
  cbn [app] in H. inversion H as [|? ? Hs Hx]; subst.
  destruct Ha as [<-|Ha].
  - rewrite Forall_forall in Hx. apply Hx, in_or_app. now right.
  - now apply IH.
Qed.

(** ** Trend analysis: the two halves *)

(** X19. The trend analysis compares two halves that together are the events:
    the early half has half of them (rounded down), the recent half the
    rest, and no event of the early half is later than one of the recent
    half. *)
Theorem trend_halves_split (events : list TrustEvent) :
  Permutation (Analytics.early_half events ++ Analytics.recent_half events) events /\
  List.length (Analytics.early_half events) = (List.length events / 2)%nat /\
  List.length (Analytics.recent_half events) =
    (List.length events - List.length events / 2)%nat /\
  forall a b,
    In a (Analytics.early_half events) -> In b (Analytics.recent_half events) ->
    (timestamp a <= timestamp b)%Z.
Proof.
  unfold Analytics.early_half, Analytics.recent_half, Analytics.sorted_events.
  set (before := fun y x : TrustEvent => (timestamp y <? timestamp x)%Z).
  pose proof (sorted_by_perm before events) as P.
  pose proof (Permutation_length P) as L.
  assert (S : StronglySorted (fun a b => (timestamp a <= timestamp b)%Z)
                (sorted_by before events)).
  { apply sorted_by_sorted; unfold before.
    - intros y x H. apply Z.ltb_lt in H. lia.
    - intros y x H. apply Z.ltb_ge in H. lia.
    - intros x y z. lia. }
  set (s := sorted_by before events) in *. clearbody s.
  rewrite L.
  assert (D : (List.length events / 2 <= List.length events)%nat).
  { apply Nat.Div0.div_le_upper_bound. lia. }
  split; [now rewrite firstn_skipn|].
  split; [rewrite length_firstn; lia|].
  split; [rewrite length_skipn; lia|].
  apply sorted_app_le. now rewrite firstn_skipn.
Qed.

(** ** Insights *)

(** Case analysis on the insights of an analysis: every conditional of the
    goal or of the hypothesis that tells where an insight is. *)
Ltac insight_cases H :=
  repeat match type of H with
         | context [if ?b then _ else _] => destruct b eqn:?
         end;
  cbn [app In] in H;
  repeat match type of H with
         | _ \/ _ => destruct H as [H|H]
         | False => contradiction
         end.

Lemma behavioral_patterns_value (events : list TrustEvent) (scores : DimensionScores) (c : Clock) :
  exists recent : list TrustEvent,
    fst (Analytics._analyze_behavioral_patterns events scores c) =
      if negb (Py.truthy events) then []
      else
        ((if Py.Qltb 0.85 (Py.len (filter is_positive events) / Py.len events) then
            [{| Analytics.category := "behavior";
                Analytics.title := "Exceptional Outcome Consistency";
                Analytics.description := "Consistently delivers positive outcomes across interactions, indicating high reliability.";
                Analytics.impact := "positive";
                Analytics.confidence := 88.0;
                Analytics.supporting_evidence :=
                  [Analytics.FString "Positive outcome rate: "
                     (Analytics.FFixed1
                        (Py.len (filter is_positive events) / Py.len events * 100)) "%";
                   Analytics.FString "Total events analyzed: "
                     (Analytics.FInt (Py.len events)) "";
                   Analytics.Literal "Low negative event frequency"];
                Analytics.trend := Some "stable" |}]
          else [])
         ++
         (if Py.Qltb 10 (Py.len recent) then
            [{| Analytics.category := "activity";
                Analytics.title := "High Recent Activity";
                Analytics.description := "Strong recent engagement suggests active and reliable presence.";
                Analytics.impact := "positive";
                Analytics.confidence := 75.0;
                Analytics.supporting_evidence :=
                  [Analytics.FString "Recent events (30 days): "
                     (Analytics.FInt (Py.len recent)) "";
                   Analytics.Literal "Consistent activity pattern";
                   Analytics.Literal "Regular interaction frequency"];
                Analytics.trend := None |}]
          else []))%list.
Proof.
  unfold Analytics._analyze_behavioral_patterns.
  destruct (negb (Py.truthy events)); [exists []; reflexivity|].
  cbv zeta. unfold bind.
  destruct (filterM (newer_than 30) events c) as [recent c'].
  exists recent. unfold ret. cbn [fst].
  destruct (Py.Qltb 10 (Py.len recent)); [reflexivity|].
  now rewrite app_nil_r.
Qed.

Lemma risk_factors_value (entity : TrustEntity) (events : list TrustEvent) (scores : DimensionScores) (c : Clock) :
  exists recent_negative : list TrustEvent,
    fst (Analytics._analyze_risk_factors entity events scores c) =
      ((if Py.Qltb 2 (Py.len recent_negative) then
          [{| Analytics.category := "risk";
              Analytics.title := "Recent Negative Outcomes";
              Analytics.description := "Multiple recent negative outcomes warrant careful consideration for future engagements.";
              Analytics.impact := "negative";
              Analytics.confidence := 85.0;
              Analytics.supporting_evidence :=
                [Analytics.FString "Recent negative events: "
                   (Analytics.FInt (Py.len recent_negative)) "";
                 Analytics.Literal "Pattern of concerning outcomes";
                 Analytics.Literal "Elevated risk profile"];
              Analytics.trend := Some "declining" |}]
        else [])
       ++
       (if Py.Qltb (transparency_level entity) 0.5 then
          [{| Analytics.category := "risk";
              Analytics.title := "Limited Transparency";
              Analytics.description := "Low transparency level may indicate reluctance to share information or verify claims.";
              Analytics.impact := "negative";
              Analytics.confidence := 70.0;
              Analytics.supporting_evidence :=
                [Analytics.FString "Transparency level: "
                   (Analytics.FFixed1 (transparency_level entity)) "";
                 Analytics.Literal "Limited information disclosure";
                 Analytics.Literal "Verification challenges"];
              Analytics.trend := None |}]
        else []))%list.
Proof.
  unfold Analytics._analyze_risk_factors. cbv zeta. unfold bind.
  destruct (filterM (newer_than 90) (filter is_negative events) c) as [recent c'].
  exists recent. unfold ret. cbn [fst].
  destruct (Py.Qltb (transparency_level entity) 0.5); [reflexivity|].
  now rewrite app_nil_r.
Qed.

Lemma collected_parts (entity : TrustEntity) (events : list TrustEvent) (scores : DimensionScores) (c : Clock) :
  exists c1 c2,
    fst (Analytics.collected_insights entity events scores c) =
      (Analytics._analyze_identity_verification entity scores
       ++ fst (Analytics._analyze_behavioral_patterns events scores c1)
       ++ Analytics._analyze_network_quality entity events
       ++ fst (Analytics._analyze_risk_factors entity events scores c2)
       ++ Analytics._analyze_temporal_trends events scores)%list.
Proof.
  unfold Analytics.collected_insights. cbv zeta. unfold bind.
  exists c.
  destruct (Analytics._analyze_behavioral_patterns events scores c) as [b c1].
  exists c1.
  destruct (Analytics._analyze_risk_factors entity events scores c1) as [r c2].
  reflexivity.
Qed.

Lemma generate_insights_value (entity : TrustEntity) (events : list TrustEvent) (scores : DimensionScores) (c : Clock) :
  fst (Analytics.generate_insights entity events scores c) =
    sorted_by (fun y x => Py.Qltb (Analytics.confidence x) (Analytics.confidence y))
              (fst (Analytics.collected_insights entity events scores c)).
Proof.
  unfold Analytics.generate_insights, bind.
  destruct (Analytics.collected_insights entity events scores c) as [l c'].
  reflexivity.
Qed.

(** X20. The insights come sorted by confidence, highest first, and they are
    the insights of the five analyses, none lost and none added. *)
Theorem insights_sorted_by_confidence
    (entity : TrustEntity) (events : list TrustEvent) (scores : DimensionScores) (c : Clock) :
  let insights := fst (Analytics.generate_insights entity events scores c) in
  StronglySorted (fun a b => Analytics.confidence b <= Analytics.confidence a) insights /\
  Permutation insights (fst (Analytics.collected_insights entity events scores c)).
Proof.
  cbv zeta. rewrite generate_insights_value. split.
  - apply sorted_by_sorted.
    + intros y x H. destruct (Qltb_spec (Analytics.confidence x) (Analytics.confidence y));
        [lra | discriminate].
    + intros y x H. destruct (Qltb_spec (Analytics.confidence x) (Analytics.confidence y));
        [discriminate | lra].
    + intros x y z. lra.
  - apply sorted_by_perm.
Qed.

Ltac well_formed_insights :=
  repeat first [apply Forall_nil | apply Forall_cons];
  try (unfold well_formed; cbn;
       split; [lra | first [left; reflexivity | right; reflexivity]]).

Lemma identity_insights (entity : TrustEntity) (scores : DimensionScores) :
  Forall well_formed (Analytics._analyze_identity_verification entity scores) /\
  (List.length (Analytics._analyze_identity_verification entity scores) <= 1)%nat.
Proof.
  unfold Analytics._analyze_identity_verification. cbv zeta.
  destruct (Qle_bool 85 (source scores)); [|destruct (Py.Qltb (source scores) 50)];
    (split; [well_formed_insights | cbn; lia]).
Qed.

Lemma behavior_insights (events : list TrustEvent) (scores : DimensionScores) (c : Clock) :
  Forall well_formed (fst (Analytics._analyze_behavioral_patterns events scores c)) /\
  (List.length (fst (Analytics._analyze_behavioral_patterns events scores c)) <= 2)%nat.
Proof.
  destruct (behavioral_patterns_value events scores c) as [recent ->].
  destruct (negb (Py.truthy events)); [split; [constructor | cbn; lia]|].
  destruct (Py.Qltb 0.85 _), (Py.Qltb 10 _);
    (split; [well_formed_insights | cbn; lia]).
Qed.

Lemma network_insights (entity : TrustEntity) (events : list TrustEvent) :
  Forall well_formed (Analytics._analyze_network_quality entity events) /\
  (List.length (Analytics._analyze_network_quality entity events) <= 2)%nat.
Proof.
  unfold Analytics._analyze_network_quality. cbv zeta.
  destruct (Py.truthy (connections entity)); [|split; [constructor | cbn; lia]].
  destruct (Py.Qltb 85 _), (Qle_bool 3 _);
    (split; [well_formed_insights | cbn; lia]).
Qed.

Lemma risk_insights (entity : TrustEntity) (events : list TrustEvent) (scores : DimensionScores) (c : Clock) :
  Forall well_formed (fst (Analytics._analyze_risk_factors entity events scores c)) /\
  (List.length (fst (Analytics._analyze_risk_factors entity events scores c)) <= 2)%nat.
Proof.
  destruct (risk_factors_value entity events scores c) as [recent ->].
  destruct (Py.Qltb 2 _), (Py.Qltb (transparency_level entity) 0.5);
    (split; [well_formed_insights | cbn; lia]).
Qed.

Lemma trend_insights (events : list TrustEvent) (scores : DimensionScores) :
  Forall well_formed (Analytics._analyze_temporal_trends events scores) /\
  (List.length (Analytics._analyze_temporal_trends events scores) <= 1)%nat.
Proof.
  unfold Analytics._analyze_temporal_trends. cbv zeta.
  destruct (Py.Qltb (Py.len events) 5); [split; [constructor | cbn; lia]|].
  destruct (Py.Qltb _ _); [|destruct (Py.Qltb _ _)];
    (split; [well_formed_insights | cbn; lia]).
Qed.

(** X21. There are at most eight insights, each with a confidence between 70
    and 92 and an impact that is [positive] or [negative]. *)
Theorem insights_bounded
    (entity : TrustEntity) (events : list TrustEvent) (scores : DimensionScores) (c : Clock) :
  let insights := fst (Analytics.generate_insights entity events scores c) in
  (List.length insights <= 8)%nat /\
  forall i, In i insights ->
    70 <= Analytics.confidence i <= 92 /\
    (Analytics.impact i = "positive" \/ Analytics.impact i = "negative").
Proof.
  cbv zeta. rewrite generate_insights_value.
  set (before := fun y x => Py.Qltb (Analytics.confidence x) (Analytics.confidence y)).
  pose proof (sorted_by_perm before
                (fst (Analytics.collected_insights entity events scores c))) as P.
  destruct (collected_parts entity events scores c) as [c1 [c2 E]].
  rewrite E in P |- *.
  destruct (identity_insights entity scores) as [F1 L1].
  destruct (behavior_insights events scores c1) as [F2 L2].
  destruct (network_insights entity events) as [F3 L3].
  destruct (risk_insights entity events scores c2) as [F4 L4].
  destruct (trend_insights events scores) as [F5 L5].
  split.
  - rewrite (Permutation_length P), !length_app. lia.
  - intros i Hi. apply (Permutation_in _ P) in Hi.
    assert (F : Forall well_formed
                  (Analytics._analyze_identity_verification entity scores
                   ++ fst (Analytics._analyze_behavioral_patterns events scores c1)
                   ++ Analytics._analyze_network_quality entity events
                   ++ fst (Analytics._analyze_risk_factors entity events scores c2)
                   ++ Analytics._analyze_temporal_trends events scores)).
    { repeat (apply Forall_app; split); assumption. }
    rewrite Forall_forall in F. exact (F i Hi).
Qed.

Ltac of_kind_insights :=
  repeat first [apply Forall_nil | apply Forall_cons];
  try (unfold of_kind; cbn; tauto).

Lemma identity_kinds (entity : TrustEntity) (scores : DimensionScores) :
  Forall (of_kind [("identity", "Strong Identity Verification");
                   ("identity", "Identity Verification Concerns")])
         (Analytics._analyze_identity_verification entity scores).
Proof.
  unfold Analytics._analyze_identity_verification. cbv zeta.
  destruct (Qle_bool 85 (source scores)); [|destruct (Py.Qltb (source scores) 50)];
    of_kind_insights.
Qed.

Lemma behavior_kinds (events : list TrustEvent) (scores : DimensionScores) (c : Clock) :
  Forall (of_kind [("behavior", "Exceptional Outcome Consistency");
                   ("activity", "High Recent Activity")])
         (fst (Analytics._analyze_behavioral_patterns events scores c)).
Proof.
  destruct (behavioral_patterns_value events scores c) as [recent ->].
  destruct (negb (Py.truthy events)); [constructor|].
  destruct (Py.Qltb 0.85 _), (Py.Qltb 10 _); of_kind_insights.
Qed.

Lemma network_kinds (entity : TrustEntity) (events : list TrustEvent) :
  Forall (of_kind [("network", "High-Quality Network");
                   ("network", "Diverse Network Connections")])
         (Analytics._analyze_network_quality entity events).
Proof.
  unfold Analytics._analyze_network_quality. cbv zeta.
  destruct (Py.truthy (connections entity)); [|constructor].
  destruct (Py.Qltb 85 _), (Qle_bool 3 _); of_kind_insights.
Qed.

Lemma risk_kinds (entity : TrustEntity) (events : list TrustEvent) (scores : DimensionScores) (c : Clock) :
  Forall (of_kind [("risk", "Recent Negative Outcomes");
                   ("risk", "Limited Transparency")])
         (fst (Analytics._analyze_risk_factors entity events scores c)).
Proof.
  destruct (risk_factors_value entity events scores c) as [recent ->].
  destruct (Py.Qltb 2 _), (Py.Qltb (transparency_level entity) 0.5); of_kind_insights.
Qed.


(** Where an insight of the result comes from. *)
Lemma insight_origin
    (entity : TrustEntity) (events : list TrustEvent) (scores : DimensionScores) (c : Clock) :
  exists c1 c2, forall i,
    In i (fst (Analytics.generate_insights entity events scores c)) <->
    In i (Analytics._analyze_identity_verification entity scores) \/
    In i (fst (Analytics._analyze_behavioral_patterns events scores c1)) \/
    In i (Analytics._analyze_network_quality entity events) \/
    In i (fst (Analytics._analyze_risk_factors entity events scores c2)) \/
    In i (Analytics._analyze_temporal_trends events scores).
Proof.
  destruct (collected_parts entity events scores c) as [c1 [c2 E]].
  exists c1, c2. intros i. rewrite generate_insights_value, E.
  set (before := fun y x => Py.Qltb (Analytics.confidence x) (Analytics.confidence y)).
  rewrite <- !in_app_iff. split.
  - apply Permutation_in, sorted_by_perm.
  - apply Permutation_in. symmetry. apply sorted_by_perm.
Qed.

Ltac wrong_kind F i Hi Hk :=
  rewrite Forall_forall in F; specialize (F i Hi); unfold of_kind in F;
  cbn [In] in F;
  repeat match type of F with
         | _ \/ _ => destruct F as [F|F]
         | False => contradiction
         | _ = _ => injection F as F ?; congruence
         end.


(** X23. A trend insight is reported only for a history of at least five
    events, and it says either [improving] or [declining]. *)
Theorem trend_insight_needs_five_events
    (entity : TrustEntity) (events : list TrustEvent) (scores : DimensionScores) (c : Clock)
    (i : Analytics.TrustInsight)
    (Hi : In i (fst (Analytics.generate_insights entity events scores c)))
    (Hc : Analytics.category i = "trend") :
  (5 <= List.length events)%nat /\
  (Analytics.trend i = Some "improving" \/ Analytics.trend i = Some "declining").
Proof.
  destruct (insight_origin entity events scores c) as [c1 [c2 O]].
  pose proof (identity_kinds entity scores) as K1.
  pose proof (behavior_kinds events scores c1) as K2.
  pose proof (network_kinds entity events) as K3.
  pose proof (risk_kinds entity events scores c2) as K4.
  apply O in Hi. destruct Hi as [Hi|[Hi|[Hi|[Hi|Hi]]]].
  - wrong_kind K1 i Hi Hc.
  - wrong_kind K2 i Hi Hc.
  - wrong_kind K3 i Hi Hc.
  - wrong_kind K4 i Hi Hc.
  - unfold Analytics._analyze_temporal_trends in Hi. cbv zeta in Hi.
    destruct (Qltb_spec (Py.len events) 5) as [L|L]; [contradiction|].
    split.
    + apply (len_ge 5). change (inject_Z (Z.of_nat 5)) with 5. lra.
    + destruct (Py.Qltb _ _); [|destruct (Py.Qltb _ _)];
        [destruct Hi as [<-|[]]; left; reflexivity
        |destruct Hi as [<-|[]]; right; reflexivity
        |contradiction].
Qed.

Lemma trend_insight_needs_five_events_witness :
  let events := [Samples.event TRANSACTION 0 NEGATIVE [];
                 Samples.event TRANSACTION 1 NEGATIVE [];
                 Samples.event TRANSACTION 2 NEGATIVE [];
                 Samples.event TRANSACTION 1990 POSITIVE [];
                 Samples.event TRANSACTION 1991 POSITIVE [];
                 Samples.event TRANSACTION 1992 POSITIVE []] in
  let scores := {| source := 60; temporal := 40; channel_ := 60;
                   outcome_ := 35; network := 5; justice := 8 |} in
  let insights :=
    fst (Analytics.generate_insights Samples.alice events scores (Samples.clock_at 2000)) in
  let i := hd {| Analytics.category := ""; Analytics.title := "";
                 Analytics.description := ""; Analytics.impact := "";
                 Analytics.confidence := 0; Analytics.supporting_evidence := [];
                 Analytics.trend := None |} insights in
  In i insights /\
  Analytics.category i = "trend" /\
  (5 <= List.length events)%nat /\
  (Analytics.trend i = Some "improving" \/ Analytics.trend i = Some "declining").
Proof.
  intros events scores insights i.
  assert (Hi : In i insights) by (vm_compute; left; reflexivity).
  assert (Hc : Analytics.category i = "trend") by (vm_compute; reflexivity).
  split; [exact Hi|]. split; [exact Hc|].
  exact (trend_insight_needs_five_events Samples.alice events scores
           (Samples.clock_at 2000) i Hi Hc).
Defined.
